(** * psql-wire: the row writer ([row.go]) and the server options

    A shallow embedding of [Columns.Define], [Columns.Write], [Column.Define]
    and [Column.Write] of [row.go], over a model of the frame writer
    ([internal/buffer]) and of the pgtype registry they call, followed by a
    model of the option functions exercised by [options_test.go]. *)

From Stdlib Require Import ZArith List Lia.
From Stdlib.Strings Require Import String Ascii Byte.
From stdpp Require Import gmap strings.
Import ListNotations.

Local Open Scope Z_scope.

(** ** Fixed-width integers

    Go's [int16] and [int32] are kept as [Z]; a conversion keeps the low
    bits and reads them in two's complement. *)

Definition wrap_signed (bits : Z) (z : Z) : Z :=
  (z + 2 ^ (bits - 1)) mod 2 ^ bits - 2 ^ (bits - 1).

Definition int16 (z : Z) : Z := wrap_signed 16 z.
Definition int32 (z : Z) : Z := wrap_signed 32 z.

(** The low eight bits of [z] as a byte. *)
Definition byte_of_Z (z : Z) : byte :=
  byte_of_ascii (ascii_of_N (Z.to_N (z mod 256))).

Definition Z_of_byte (b : byte) : Z := Z.of_N (Byte.to_N b).

(** Big-endian encodings, as [binary.BigEndian.PutUint16] and [PutUint32]
    write them (the unsigned reading of the two's complement value). *)
Definition be16 (z : Z) : list byte :=
  [byte_of_Z (Z.shiftr z 8); byte_of_Z z].

Definition be32 (z : Z) : list byte :=
  [byte_of_Z (Z.shiftr z 24); byte_of_Z (Z.shiftr z 16);
   byte_of_Z (Z.shiftr z 8); byte_of_Z z].

(** Reading a big-endian [i16] back, as a client does. *)
Definition read_u16 (bs : list byte) : option Z :=
  match bs with
  | hi :: lo :: _ => Some (Z_of_byte hi * 256 + Z_of_byte lo)
  | _ => None
  end.

Definition read_i16 (bs : list byte) : option Z :=
  match read_u16 bs with
  | Some u => Some (int16 u)
  | None => None
  end.

(** ** Errors

    The [error] values the modelled code creates or passes on. *)
Inductive error : Type :=
  | Canceled                     (* context.Canceled *)
  | DeadlineExceeded             (* context.DeadlineExceeded *)
  | ErrNoConnInfo                (* "postgres connection info has not been defined inside the given context" *)
  | ErrUnknownDataType           (* "unknown data type: wire.Column" *)
  | ErrUnexpectedColumns (defined given : nat)
                                 (* "unexpected columns, %d columns are defined ... but %d were given" *)
  | ErrCodec (msg : string)      (* an error returned by a pgtype value or encoder *)
  | ErrOption (msg : string)     (* an error returned by an option function *)
  | ErrConfigure (cause : error) (* "unexpected error while attempting to configure a new server: %w" *)
  | Panic (msg : string).        (* a run-time panic (index out of range, nil call) *)

(** ** The frame writer *)
Module Buffer.

(** Modelled from the spec: [internal/types] is not under src/; the spec's
    scenarios (section 8) name the RowDescription frame [T], as the
    PostgreSQL protocol does. *)
Definition ServerRowDescription : byte := "T"%byte.

(** Modelled from the spec: the same scenarios name the DataRow frame [D]. *)
Definition ServerDataRow : byte := "D"%byte.

(** Modelled from the spec: [internal/buffer.Writer] is not under src/.
    Section 4.1 gives a message as [<type:u8><length:i32 including length
    field><payload>], integers big-endian, strings null-terminated, and
    gives [write_message] no failure of its own. The writer holds the
    message under construction ([mtype], [payload]) and the bytes already
    written to the stream. *)
Record Writer : Type := mkWriter {
  mtype : byte;
  payload : list byte;
  stream : list byte
}.

(** Modelled from the spec: a message on the wire (section 4.1), the type
    byte, the length of the payload plus the four bytes of the length
    itself, and the payload. *)
Definition message (t : byte) (p : list byte) : list byte :=
  t :: be32 (4 + Z.of_nat (length p)) ++ p.

(** Modelled from the spec: [Start] begins a new message of type [t]. *)
Definition Start (t : byte) (w : Writer) : Writer :=
  {| mtype := t; payload := []; stream := stream w |}.

(** Modelled from the spec: [AddBytes] appends to the payload of the
    message under construction. *)
Definition AddBytes (b : list byte) (w : Writer) : Writer :=
  {| mtype := mtype w; payload := payload w ++ b; stream := stream w |}.

(** Modelled from the spec: one byte. *)
Definition AddByte (b : byte) : Writer -> Writer := AddBytes [b].

(** Modelled from the spec: an [i16], big-endian. *)
Definition AddInt16 (i : Z) : Writer -> Writer := AddBytes (be16 i).

(** Modelled from the spec: an [i32], big-endian. *)
Definition AddInt32 (i : Z) : Writer -> Writer := AddBytes (be32 i).

(** Modelled from the spec: the bytes of a string, without terminator. *)
Definition AddString (s : string) : Writer -> Writer :=
  AddBytes (list_byte_of_string s).

(** Modelled from the spec: the terminator of a C-style string. *)
Definition AddNullTerminate : Writer -> Writer := AddByte "000"%byte.

(** Modelled from the spec: [End] writes the finished message to the
    stream and returns [nil]. *)
Definition End (w : Writer) : option error * Writer :=
  (None,
   {| mtype := mtype w; payload := [];
      stream := stream w ++ message (mtype w) (payload w) |}).

End Buffer.

(** ** The row writer ([row.go]) *)
Module Wire.
Import Buffer.

(** Modelled from the spec: the declaration of [FormatCode] ([format.go]) is
    not under src/; section 3 gives [format: {Text|Binary}], the wire format
    of a column's values. *)
Inductive FormatCode : Type := TextFormat | BinaryFormat.

(** Modelled from the spec: the format code as the [int16] on the wire, as
    the PostgreSQL protocol has it (text 0, binary 1). *)
Definition FormatCode_int16 (f : FormatCode) : Z :=
  match f with TextFormat => 0 | BinaryFormat => 1 end.

(** [Column] represents a table column and its attributes. *)
Record Column : Type := mkColumn {
  Table : Z;          (* int32, table id *)
  Name : string;      (* column name *)
  AttrNo : Z;         (* int16 *)
  Oid : Z;            (* oid.Oid, a uint32 *)
  Width : Z;          (* int16 *)
  TypeModifier : Z;   (* int32 *)
  Format : FormatCode
}.

(** [context.Context] as the row writer reads it: [ctx.Err()], the values
    attached with [context.WithValue] (innermost first), and whether the
    context carries the connection's [*pgtype.ConnInfo] (what [TypeInfo]
    looks up). *)
Record Context : Type := mkContext {
  Err : option error;
  Values : list (string * string);
  has_TypeInfo : bool
}.

Section Registry.

(** [host] are the non-nil host values a callback may hand to [Row]; a
    source value of type [any] is [None] for Go's [nil]. [Cell] is the state
    a pgtype value object holds between [Set] and the encoders. *)
Context {host Cell : Type}.

(** A registered [pgtype.DataType]: the value object ([Value], with its
    [Set] method) and its text and binary encoders. [Set] mutates the value
    object and may fail; the encoders read it. The encoders' [ci] and [buf]
    arguments are left out: [Column.Write] passes the registry itself and a
    nil buffer. *)
Record DataType : Type := mkDataType {
  Value : Cell;
  Set_ : option host -> Cell -> option error * Cell;
  EncodeText : Cell -> list byte * option error;
  EncodeBinary : Cell -> list byte * option error
}.

(** The data type after its value object was mutated to hold [v]. *)
Definition with_Value (typed : DataType) (v : Cell) : DataType :=
  {| Value := v; Set_ := Set_ typed;
     EncodeText := EncodeText typed; EncodeBinary := EncodeBinary typed |}.

(** What the row writer mutates: the frame writer and the connection's type
    registry ([pgtype.ConnInfo], data types by OID). *)
Record Conn : Type := mkConn {
  writer : Writer;
  types : gmap Z DataType
}.

(** Go methods that return [error] and mutate their receiver or arguments:
    a state monad over [Conn] whose result is an error or a value. The state
    reached when the error is returned is kept, as mutation is in Go. *)
Definition M (A : Type) : Type := Conn -> (error + A) * Conn.

Definition ret {A} (a : A) : M A := fun s => (inr a, s).
Definition fail {A} (e : error) : M A := fun s => (inl e, s).
Definition bind {A B} (m : M A) (k : A -> M B) : M B :=
  fun s => match m s with
           | (inl e, s') => (inl e, s')
           | (inr a, s') => k a s'
           end.

(** A writer call that returns nothing of interest. *)
Definition on_writer (f : Writer -> Writer) : M unit :=
  fun s => (inr tt, {| writer := f (writer s); types := types s |}).

(** [return writer.End()]. *)
Definition writer_End : M unit :=
  fun s => match End (writer s) with
           | (Some e, w) => (inl e, {| writer := w; types := types s |})
           | (None, w) => (inr tt, {| writer := w; types := types s |})
           end.

(** The [error] a Go method returns: [nil] is [None]. *)
Definition returned {A} (r : (error + A) * Conn) : option error :=
  match fst r with inl e => Some e | inr _ => None end.

End Registry.

Arguments DataType : clear implicits.
Arguments Conn : clear implicits.
Arguments M : clear implicits.

Declare Scope go_scope.
Delimit Scope go_scope with go.
Notation "x <- m ;; k" := (bind m (fun x => k))
  (at level 100, m at level 99, k at level 200, right associativity,
   only parsing) : go_scope.
Notation "m ;; k" := (bind m (fun _ => k))
  (at level 100, k at level 200, right associativity, only parsing) : go_scope.

Section Row.
Context {host Cell : Type}.
Local Open Scope go_scope.

Local Abbreviation M := (Wire.M host Cell).

(** Modelled from the spec: [TypeInfo(ctx)], the connection info stored in
    the context, or nil. The helper is not under src/; [Column.Write]
    treats a nil result as "connection info has not been defined". *)
Definition TypeInfo (ctx : Context) : M (option (gmap Z (DataType host Cell))) :=
  fun s => (inr (if has_TypeInfo ctx then Some (types s) else None), s).

(** [typed.Value.Set(src)] on the data type registered under [oid]: the
    value object inside the registry is mutated, whether or not [Set]
    returns an error. *)
Definition Value_Set (oid : Z) (typed : DataType host Cell) (src : option host)
  : M (DataType host Cell) :=
  fun s =>
    let '(err, v) := Set_ typed src (Value typed) in
    let typed' := with_Value typed v in
    let s' := {| writer := writer s; types := <[oid := typed']> (types s) |} in
    match err with
    | Some e => (inl e, s')
    | None => (inr typed', s')
    end.

(** Modelled from the spec: [column.Format.Encoder(typed)], the encoder of
    the column's format. [format.go] is not under src/; section 4.2 gives
    each codec a text and a binary encoder, chosen by the declared format. *)
Definition Encoder (f : FormatCode) (typed : DataType host Cell)
  : list byte * option error :=
  match f with
  | TextFormat => EncodeText typed (Value typed)
  | BinaryFormat => EncodeBinary typed (Value typed)
  end.

(** [func (column Column) Define(ctx, writer)]. *)
Definition Column_Define (ctx : Context) (column : Column) : M unit :=
  on_writer (AddString (Name column)) ;;
  on_writer AddNullTerminate ;;
  on_writer (AddInt32 (Table column)) ;;
  on_writer (AddInt16 (AttrNo column)) ;;
  on_writer (AddInt32 (int32 (Oid column))) ;;
  on_writer (AddInt16 (Width column)) ;;
  on_writer (AddInt32 (-1)) ;;
  on_writer (AddInt16 (int16 (FormatCode_int16 (Format column)))).

(** [for _, column := range columns { column.Define(ctx, writer) }]. *)
Fixpoint Define_each (ctx : Context) (columns : list Column) : M unit :=
  match columns with
  | [] => ret tt
  | column :: rest => Column_Define ctx column ;; Define_each ctx rest
  end.

(** [func (columns Columns) Define(ctx, writer) error]. *)
Definition Columns_Define (ctx : Context) (columns : list Column) : M unit :=
  if (length columns =? 0)%nat then ret tt
  else
    on_writer (Start ServerRowDescription) ;;
    on_writer (AddInt16 (int16 (Z.of_nat (length columns)))) ;;
    Define_each ctx columns ;;
    writer_End.

(** [func (column Column) Write(ctx, writer, src) error]. *)
Definition Column_Write (ctx : Context) (column : Column) (src : option host)
  : M unit :=
  match Err ctx with
  | Some e => fail e
  | None =>
    ci <- TypeInfo ctx ;;
    match ci with
    | None => fail ErrNoConnInfo
    | Some ci =>
      match ci !! Oid column with
      | None => fail ErrUnknownDataType
      | Some typed =>
        typed <- Value_Set (Oid column) typed src ;;
        match Encoder (Format column) typed with
        | (_, Some e) => fail e
        | (bb, None) =>
          let length_ :=
            match src with
            | None => -1
            | Some _ => int32 (Z.of_nat (length bb))
            end in
          on_writer (AddInt32 length_) ;;
          on_writer (AddBytes bb)
        end
      end
    end
  end.

(** [for index, column := range columns { err = column.Write(ctx, writer,
    srcs[index]); if err != nil { return err } }]; indexing past the end of
    [srcs] panics. *)
Fixpoint Write_each (ctx : Context) (index : nat) (columns : list Column)
    (srcs : list (option host)) : M unit :=
  match columns with
  | [] => ret tt
  | column :: rest =>
    match srcs !! index with
    | None => fail (Panic "index out of range")
    | Some src =>
      Column_Write ctx column src ;;
      Write_each ctx (S index) rest srcs
    end
  end.

(** [func (columns Columns) Write(ctx, writer, srcs) error]. *)
Definition Columns_Write (ctx : Context) (columns : list Column)
    (srcs : list (option host)) : M unit :=
  if negb (length srcs =? length columns)%nat then
    fail (ErrUnexpectedColumns (length columns) (length srcs))
  else
    on_writer (Start ServerDataRow) ;;
    on_writer (AddInt16 (int16 (Z.of_nat (length columns)))) ;;
    Write_each ctx 0 columns srcs ;;
    writer_End.

End Row.

End Wire.

(** ** [context.WithValue] and [ctx.Value] *)
Definition Background : Wire.Context :=
  {| Wire.Err := None; Wire.Values := []; Wire.has_TypeInfo := false |}.

Definition WithValue (ctx : Wire.Context) (key val : string) : Wire.Context :=
  {| Wire.Err := Wire.Err ctx;
     Wire.Values := (key, val) :: Wire.Values ctx;
     Wire.has_TypeInfo := Wire.has_TypeInfo ctx |}.

Fixpoint assoc (key : string) (kvs : list (string * string)) : option string :=
  match kvs with
  | [] => None
  | (k, v) :: rest => if String.eqb k key then Some v else assoc key rest
  end.

Definition Value_of (ctx : Wire.Context) (key : string) : option string :=
  assoc key (Wire.Values ctx).

(** ** Server options

    [options.go], [server.go] and [command.go] are not under src/; only
    [options_test.go] is. The definitions of this module are modelled from
    the spec (sections 4.7, 6 and 9) and from what the tests call and
    assert; where the two disagree, the tests are followed. *)
Module Options.
Import Wire.

Section Server.

(** The [DataWriter] handed to a statement, kept abstract. *)
Context {DataWriter : Type}.

(** Modelled from the spec: [(ctx, writer, bound_params_as_strings)]
    (section 4.6), returning an error. *)
Definition PreparedStatementFn : Type :=
  Context -> DataWriter -> list string -> option error * DataWriter.

(** Modelled from the spec: [(ctx, sql) -> (stmt_fn, param_oids, err)]
    (section 6). *)
Definition ParseFn : Type :=
  Context -> string -> option PreparedStatementFn * list Z * option error.

(** Modelled from the spec: [(ctx, sql, writer, params) -> err]
    (section 6). *)
Definition SimpleQueryFn : Type :=
  Context -> string -> DataWriter -> list string -> option error * DataWriter.

(** Modelled from the spec: [(ctx) -> (ctx, err)] (section 6). *)
Definition SessionHandler : Type := Context -> Context * option error.

(** Modelled from the spec: [Server] is not under src/; of section 3's
    fields, [parse_fn] and [session_fn], the two the tests read. A nil
    function is [None]. *)
Record Server : Type := mkServer {
  srv_Parse : option ParseFn;
  srv_Session : option SessionHandler
}.

(** Modelled from the spec: an option is a server-mutating function
    (section 9); it applies itself to the server and may fail ([option(srv)] in
    the tests). *)
Definition OptionFn : Type := Server -> option error * Server.

(** [ParseParameters(query)], the parameter OIDs the synthesised parse
    function reports for a query. The function is not under src/, and the
    spec describes its count in more than one way (sections 4.6, 4.7 and
    8); it is a parameter of the model. *)
Variable ParseParameters : string -> list Z.

(** Modelled from the spec: the [Parse] option is not under src/. Section
    4.7 gives non-chaining options last-wins semantics. *)
Definition Parse (fn : option ParseFn) : OptionFn :=
  fun srv => (None, {| srv_Parse := fn; srv_Session := srv_Session srv |}).

(** Modelled from the spec: the statement the synthesised parse function
    returns "wraps the same callback" (section 4.7); calling a nil callback
    panics. *)
Definition simple_statement (fn : option SimpleQueryFn) (query : string)
  : PreparedStatementFn :=
  fun ctx writer parameters =>
    match fn with
    | Some f => f ctx query writer parameters
    | None => (Some (Panic "nil function call"), writer)
    end.

(** Modelled from the spec: the [SimpleQuery] option is not under src/.
    Section 4.7: "an implicit parse_fn is synthesised that wraps the same
    callback"; [TestInvalidOptions] has [SimpleQuery] after [Parse] rejected,
    [TestSimpleQueryParameters] has it accepted on an empty server. The
    sources do not give the text of the error; nothing below depends on
    it. *)
Definition SimpleQuery (fn : option SimpleQueryFn) : OptionFn :=
  fun srv =>
    match srv_Parse srv with
    | Some _ =>
      (Some (ErrOption "a parse handler has already been set"), srv)
    | None =>
      (None,
       {| srv_Parse := Some (fun ctx query =>
            (Some (simple_statement fn query), ParseParameters query, None));
          srv_Session := srv_Session srv |})
    end.

(** Modelled from the spec: the [Session] option is not under src/. Section
    4.7: "multiple Session options chain so that each receives the context
    from the previous one"; a hook that fails ends the chain. *)
Definition Session (fn : SessionHandler) : OptionFn :=
  fun srv =>
    match srv_Session srv with
    | None => (None, {| srv_Parse := srv_Parse srv; srv_Session := Some fn |})
    | Some previous =>
      (None,
       {| srv_Parse := srv_Parse srv;
          srv_Session := Some (fun ctx =>
            match previous ctx with
            | (ctx', Some e) => (ctx', Some e)
            | (ctx', None) => fn ctx'
            end) |})
    end.

(** Modelled from the spec: [&Server{}], as the tests build it. *)
Definition empty_Server : Server :=
  {| srv_Parse := None; srv_Session := None |}.

(** Modelled from the spec: the server [NewServer] starts from; its
    [Session] returns the context it is given ([TestNilSessionHandler]). *)
Definition default_Server : Server :=
  {| srv_Parse := None; srv_Session := Some (fun ctx => (ctx, None)) |}.

(** Modelled from the spec: the options are applied in order and the
    first error ends the loop, as the loop of [TestInvalidOptions] does:
    [for _, option := range test { err := option(srv); ... }]. *)
Fixpoint apply_options (options : list OptionFn) (srv : Server)
  : option error * Server :=
  match options with
  | [] => (None, srv)
  | option :: rest =>
    match option srv with
    | (Some e, srv') => (Some e, srv')
    | (None, srv') => apply_options rest srv'
    end
  end.

(** Modelled from the spec: [NewServer] is not under src/. Section 4.7:
    it "returns a Server or an InvalidOption error"; section 9: the options
    are "a list of server-mutating functions". It makes no check of its own
    once the options are applied: [TestNilSessionHandler] and
    [TestSessionHandler], which are under src/, have it return a server
    when no handler is supplied, where the example of section 4.7 has it
    reject; the tests are followed. *)
Definition NewServer (options : list OptionFn) : option Server * option error :=
  match apply_options options default_Server with
  | (Some e, _) => (None, Some (ErrConfigure e))
  | (None, srv) => (Some srv, None)
  end.

(** The spec's words for session chaining: the hooks run in order, each on
    the context the previous one returned. *)
Fixpoint pipeline (hooks : list SessionHandler) (ctx : Context)
  : Context * option error :=
  match hooks with
  | [] => (ctx, None)
  | f :: rest =>
    match f ctx with
    | (ctx', Some e) => (ctx', Some e)
    | (ctx', None) => pipeline rest ctx'
    end
  end.

(** A hook that cannot fail. *)
Definition hook (g : Context -> Context) : SessionHandler :=
  fun ctx => (g ctx, None).

End Server.

Arguments Server : clear implicits.
Arguments OptionFn : clear implicits.
Arguments SessionHandler : clear implicits.
Arguments ParseFn : clear implicits.
Arguments SimpleQueryFn : clear implicits.
Arguments PreparedStatementFn : clear implicits.

End Options.

(** ** Sample values

    Host values, codecs in the style of pgtype's [Text] and [Bool], and the
    columns of the tests of [row.go]; they are the concrete inputs of the
    examples below. *)
Module Sample.
Import Buffer Wire.

Inductive host : Type :=
  | HString (s : string)
  | HBool (b : bool).

(** The state of a pgtype value object: its status and, when present, the
    value last set. *)
Inductive cell : Type :=
  | Undefined
  | Null
  | Present (v : host).

Definition encode_text (c : cell) : list byte * option error :=
  match c with
  | Undefined => ([], Some (ErrCodec "cannot encode status undefined"))
  | Null => ([], None)
  | Present (HString s) => (list_byte_of_string s, None)
  | Present (HBool true) => (list_byte_of_string "t", None)
  | Present (HBool false) => (list_byte_of_string "f", None)
  end.

Definition encode_binary (c : cell) : list byte * option error :=
  match c with
  | Undefined => ([], Some (ErrCodec "cannot encode status undefined"))
  | Null => ([], None)
  | Present (HString s) => (list_byte_of_string s, None)
  | Present (HBool true) => (["001"%byte], None)
  | Present (HBool false) => (["000"%byte], None)
  end.

(** [Set] of a text value: nil gives the null status. *)
Definition text_Set (src : option host) (old : cell) : option error * cell :=
  match src with
  | None => (None, Null)
  | Some (HString s) => (None, Present (HString s))
  | Some (HBool _) => (Some (ErrCodec "cannot convert to Text"), old)
  end.

Definition bool_Set (src : option host) (old : cell) : option error * cell :=
  match src with
  | None => (None, Null)
  | Some (HBool b) => (None, Present (HBool b))
  | Some (HString _) => (Some (ErrCodec "cannot convert to Bool"), old)
  end.

(** A registered type whose value object rejects nil. *)
Definition strict_Set (src : option host) (old : cell) : option error * cell :=
  match src with
  | None => (Some (ErrCodec "cannot convert nil"), old)
  | Some v => (None, Present v)
  end.

Definition Text : DataType host cell :=
  {| Value := Undefined; Set_ := text_Set;
     EncodeText := encode_text; EncodeBinary := encode_binary |}.

Definition Bool : DataType host cell :=
  {| Value := Undefined; Set_ := bool_Set;
     EncodeText := encode_text; EncodeBinary := encode_binary |}.

Definition Strict : DataType host cell :=
  {| Value := Undefined; Set_ := strict_Set;
     EncodeText := encode_text; EncodeBinary := encode_binary |}.

(** [oid.T_bool], [oid.T_text], and an OID outside the registry. *)
Definition T_bool : Z := 16.
Definition T_text : Z := 25.
Definition T_point : Z := 600.
Definition T_strict : Z := 90001.

Definition registry : gmap Z (DataType host cell) :=
  <[T_text := Text]> (<[T_bool := Bool]> (<[T_strict := Strict]> ∅)).

Definition fresh_writer : Writer :=
  {| mtype := "000"%byte; payload := []; stream := [] |}.

Definition conn : Conn host cell :=
  {| writer := fresh_writer; types := registry |}.

(** A live context of a connection, and the same context once cancelled. *)
Definition ctx : Context :=
  {| Err := None; Values := []; has_TypeInfo := true |}.

Definition cancelled : Context :=
  {| Err := Some Canceled; Values := []; has_TypeInfo := true |}.

(** The columns of [TestServerWritingResult] and [TestServerNULLValues]. *)
Definition name_column : Column :=
  {| Table := 0; Name := "name"; AttrNo := 0; Oid := T_text; Width := 256;
     TypeModifier := 0; Format := TextFormat |}.

Definition member_column : Column :=
  {| Table := 0; Name := "member"; AttrNo := 0; Oid := T_bool; Width := 1;
     TypeModifier := 0; Format := TextFormat |}.

(** A [varchar(16)]-like column: its type modifier is provided. *)
Definition modified_column : Column :=
  {| Table := 0; Name := "name"; AttrNo := 0; Oid := T_text; Width := 256;
     TypeModifier := 20; Format := TextFormat |}.

Definition point_column : Column :=
  {| Table := 0; Name := "at"; AttrNo := 0; Oid := T_point; Width := 16;
     TypeModifier := 0; Format := TextFormat |}.

Definition strict_column : Column :=
  {| Table := 0; Name := "id"; AttrNo := 0; Oid := T_strict; Width := 8;
     TypeModifier := 0; Format := TextFormat |}.

End Sample.

(** ** Message layouts, in the spec's words

    Section 4.3: RowDescription is [count:i16] followed, per column, by
    [name\0 table:i32 attr:i16 oid:i32 width:i16 type_mod:i32 format:i16];
    a DataRow field is a length prefix and the value's bytes. *)
Module Layout.
Import Buffer Wire.

Definition row_description_entry (column : Column) : list byte :=
  list_byte_of_string (Name column) ++ ["000"%byte] ++
  be32 (Table column) ++
  be16 (AttrNo column) ++
  be32 (Oid column) ++
  be16 (Width column) ++
  be32 (-1) ++
  be16 (FormatCode_int16 (Format column)).

Definition row_description (columns : list Column) : list byte :=
  be16 (Z.of_nat (length columns)) ++ flat_map row_description_entry columns.

(** Reading a big-endian [i32] back. *)
Definition read_i32 (bs : list byte) : option Z :=
  match bs with
  | b3 :: b2 :: b1 :: b0 :: _ =>
    Some (int32 (((Z_of_byte b3 * 256 + Z_of_byte b2) * 256 + Z_of_byte b1) * 256
                 + Z_of_byte b0))
  | _ => None
  end.

(** The [type_mod] field of a column's entry: after the name, its
    terminator, and the table, attribute, OID and width fields. *)
Definition entry_type_mod (column : Column) (entry : list byte) : option Z :=
  read_i32 (skipn (String.length (Name column) + 13) entry).

(** The writer after one more finished message with the given payload. *)
Definition sent (t : byte) (p : list byte) (w : Writer) : Writer :=
  {| mtype := t; payload := []; stream := stream w ++ message t p |}.

(** The count field of the last message of a stream that ends with a
    message [t p]: the two bytes after the type and the length. *)
Definition message_count (msg : list byte) : option Z :=
  read_i16 (skipn 5 msg).

(** A DataRow field: the length prefix, [-1] for a nil source and the
    number of value bytes otherwise, and then the bytes the encoder gave. *)
Definition data_row_field {host : Type} (src : option host) (bb : list byte)
  : list byte :=
  be32 (match src with
        | None => -1
        | Some _ => Z.of_nat (length bb)
        end) ++ bb.

(** More columns than a [count:i16] can hold. *)
Definition many : nat := Z.to_nat 65536.

End Layout.

(** ** Reading the messages back

    What a client does with the bytes of a RowDescription and of a DataRow
    (PostgreSQL protocol, message formats): the readers against which the
    row writer's output is checked. *)
Module Client.
Import Buffer Wire Layout.

(** Reading a big-endian [u32] (an OID). *)
Definition read_u32 (bs : list byte) : option Z :=
  match bs with
  | b3 :: b2 :: b1 :: b0 :: _ =>
    Some (((Z_of_byte b3 * 256 + Z_of_byte b2) * 256 + Z_of_byte b1) * 256
          + Z_of_byte b0)
  | _ => None
  end.

(** A C-style string: the bytes before the first NUL, and what follows it. *)
Fixpoint split_cstring (bs : list byte) : option (list byte * list byte) :=
  match bs with
  | [] => None
  | b :: rest =>
    if Byte.eqb b "000"%byte then Some ([], rest)
    else match split_cstring rest with
         | Some (name, tail) => Some (b :: name, tail)
         | None => None
         end
  end.

Definition FormatCode_of_int16 (z : Z) : option FormatCode :=
  if z =? 0 then Some TextFormat
  else if z =? 1 then Some BinaryFormat
  else None.

(** One column entry of a RowDescription, and the bytes after it. *)
Definition parse_entry (bs : list byte) : option (Column * list byte) :=
  match split_cstring bs with
  | None => None
  | Some (name, fields) =>
    match read_i32 fields, read_i16 (skipn 4 fields), read_u32 (skipn 6 fields),
          read_i16 (skipn 10 fields), read_i32 (skipn 12 fields),
          read_i16 (skipn 16 fields) with
    | Some table, Some attr, Some oid, Some width, Some type_mod, Some format =>
      match FormatCode_of_int16 format with
      | Some f =>
        Some ({| Table := table; Name := string_of_list_byte name;
                 AttrNo := attr; Oid := oid; Width := width;
                 TypeModifier := type_mod; Format := f |},
              skipn 18 fields)
      | None => None
      end
    | _, _, _, _, _, _ => None
    end
  end.

(** [n] entries, and nothing after them. *)
Fixpoint parse_entries (n : nat) (bs : list byte) : option (list Column) :=
  match n with
  | O => match bs with [] => Some [] | _ :: _ => None end
  | S n' =>
    match parse_entry bs with
    | Some (column, rest) =>
      match parse_entries n' rest with
      | Some columns => Some (column :: columns)
      | None => None
      end
    | None => None
    end
  end.

(** The payload of a RowDescription: the count, then that many entries. *)
Definition parse_row_description (p : list byte) : option (list Column) :=
  match read_i16 p with
  | Some count =>
    if count <? 0 then None else parse_entries (Z.to_nat count) (skipn 2 p)
  | None => None
  end.

(** One field of a DataRow: [None] for NULL (length [-1]), else the value's
    bytes; and the bytes after the field. *)
Definition parse_field (bs : list byte)
  : option (option (list byte) * list byte) :=
  match read_i32 bs with
  | None => None
  | Some len =>
    let rest := skipn 4 bs in
    if len =? -1 then Some (None, rest)
    else if len <? 0 then None
    else if (length rest <? Z.to_nat len)%nat then None
    else Some (Some (firstn (Z.to_nat len) rest), skipn (Z.to_nat len) rest)
  end.

Fixpoint parse_fields (n : nat) (bs : list byte)
  : option (list (option (list byte))) :=
  match n with
  | O => match bs with [] => Some [] | _ :: _ => None end
  | S n' =>
    match parse_field bs with
    | Some (field, rest) =>
      match parse_fields n' rest with
      | Some fields => Some (field :: fields)
      | None => None
      end
    | None => None
    end
  end.

(** The payload of a DataRow: the count, then that many fields. *)
Definition parse_data_row (p : list byte) : option (list (option (list byte))) :=
  match read_i16 p with
  | Some count =>
    if count <? 0 then None else parse_fields (Z.to_nat count) (skipn 2 p)
  | None => None
  end.

(** A column as its Go type has it: every integer field within the range
    of its type, and a name without a NUL byte. *)
Definition well_formed (column : Column) : Prop :=
  -2147483648 <= Table column < 2147483648
  /\ -32768 <= AttrNo column < 32768
  /\ 0 <= Oid column < 4294967296
  /\ -32768 <= Width column < 32768
  /\ ~ In "000"%byte (list_byte_of_string (Name column)).

(** What a RowDescription tells about a column: all of it but the type
    modifier, which is sent as [-1]. *)
Definition described (column : Column) : Column :=
  {| Table := Table column; Name := Name column; AttrNo := AttrNo column;
     Oid := Oid column; Width := Width column; TypeModifier := -1;
     Format := Format column |}.

(** What a client reads for a source value whose encoder gave [bb]. *)
Definition received {host : Type} (src : option host) (bb : list byte)
  : option (list byte) :=
  match src with
  | None => None
  | Some _ => Some bb
  end.

(** Encoder output a DataRow field can carry: fewer than [2^31] bytes, and
    none for a nil source. *)
Definition field_ok {host : Type} (src : option host) (bb : list byte) : Prop :=
  Z.of_nat (length bb) < 2147483648 /\ (src = None -> bb = []).

(** The fields of a row, for the sources and what their encoders gave. *)
Fixpoint data_row_fields {host : Type} (srcs : list (option host))
    (outs : list (list byte)) : list byte :=
  match srcs, outs with
  | src :: srcs', bb :: outs' =>
    data_row_field src bb ++ data_row_fields srcs' outs'
  | _, _ => []
  end.

Fixpoint received_row {host : Type} (srcs : list (option host))
    (outs : list (list byte)) : list (option (list byte)) :=
  match srcs, outs with
  | src :: srcs', bb :: outs' => received src bb :: received_row srcs' outs'
  | _, _ => []
  end.

(** One encoder output per source, each fit for a field. *)
Fixpoint fields_ok {host : Type} (srcs : list (option host))
    (outs : list (list byte)) : Prop :=
  match srcs, outs with
  | src :: srcs', bb :: outs' => field_ok src bb /\ fields_ok srcs' outs'
  | [], [] => True
  | _, _ => False
  end.

(** Two registries hold the same data types, value objects apart: the same
    OIDs are registered, with the same [Set] and encoders. *)
Definition same_types {host Cell : Type}
    (before after : gmap Z (DataType host Cell)) : Prop :=
  forall oid,
    match before !! oid with
    | None => after !! oid = None
    | Some typed => exists v, after !! oid = Some (with_Value typed v)
    end.

Section Encoded.
Context {host Cell : Type}.

(** The bytes of a value in a column, by the registry [m]: what the
    encoder of the column's format gives for the value object of the
    column's data type once [Set] was called on it with the value. *)
Definition encoded_value (m : gmap Z (DataType host Cell)) (column : Column)
    (src : option host) : list byte :=
  match m !! Oid column with
  | Some typed =>
    fst (Encoder (Format column)
           (with_Value typed (snd (Set_ typed src (Value typed)))))
  | None => []
  end.

(** The registry once [Set] was called with the value on the value object
    of the column's data type. *)
Definition after_Set (m : gmap Z (DataType host Cell)) (column : Column)
    (src : option host) : gmap Z (DataType host Cell) :=
  match m !! Oid column with
  | Some typed =>
    <[Oid column := with_Value typed (snd (Set_ typed src (Value typed)))]> m
  | None => m
  end.

(** The bytes of the values of a row, column by column: each value is set
    and encoded on the registry as the columns before it left it. *)
Fixpoint encoded_row (columns : list Column) (srcs : list (option host))
    (m : gmap Z (DataType host Cell)) : list (list byte) :=
  match columns, srcs with
  | column :: columns', src :: srcs' =>
    encoded_value m column src
    :: encoded_row columns' srcs' (after_Set m column src)
  | _, _ => []
  end.

End Encoded.

End Client.

(** * Properties *)

Import Buffer Wire Layout.

(** ** Bytes and fixed-width integers *)

Lemma byte_of_Z_congr (a b : Z) :
  a mod 256 = b mod 256 -> byte_of_Z a = byte_of_Z b.
Proof. unfold byte_of_Z. intros ->. reflexivity. Qed.

Lemma Z_of_byte_of_Z (z : Z) : Z_of_byte (byte_of_Z z) = z mod 256.
Proof.
  unfold Z_of_byte, byte_of_Z.
  assert (Hlt : (Z.to_N (z mod 256) < 256)%N).
  { pose proof (Z.mod_pos_bound z 256). lia. }
  pose proof (byte_of_ascii_via_N (ascii_of_N (Z.to_N (z mod 256)))) as Hb.
  rewrite (N_ascii_embedding _ Hlt) in Hb.
  symmetry in Hb. apply Byte.to_of_N in Hb. rewrite Hb.
  apply Z2N.id. pose proof (Z.mod_pos_bound z 256). lia.
Qed.

(** Bytes [k/8] of [z] and of [z + q * 2^bits] agree below [bits]. *)
Lemma byte_shiftr_congr (z q k j : Z) :
  0 <= k -> 0 <= j ->
  byte_of_Z (Z.shiftr (z + q * 2 ^ (k + 8 + j)) k) = byte_of_Z (Z.shiftr z k).
Proof.
  intros Hk Hj. apply byte_of_Z_congr.
  rewrite !Z.shiftr_div_pow2 by assumption.
  replace (q * 2 ^ (k + 8 + j)) with ((q * 2 ^ j * 256) * 2 ^ k).
  - rewrite Z.div_add by (apply Z.pow_nonzero; lia).
    apply Z_mod_plus_full.
  - rewrite !Z.pow_add_r by lia. change (2 ^ 8) with 256. ring.
Qed.

Lemma wrap_signed_shift (bits z : Z) :
  0 < bits ->
  wrap_signed bits z = z + (- ((z + 2 ^ (bits - 1)) / 2 ^ bits)) * 2 ^ bits.
Proof.
  intros Hb. unfold wrap_signed.
  assert (0 < 2 ^ bits) by (apply Z.pow_pos_nonneg; lia).
  rewrite Z.mod_eq by lia. ring.
Qed.

Lemma be16_int16 (z : Z) : be16 (int16 z) = be16 z.
Proof.
  unfold be16, int16. rewrite wrap_signed_shift by lia.
  f_equal; [| f_equal].
  - apply (byte_shiftr_congr z _ 8 0); lia.
  - rewrite <- (Z.shiftr_0_r (z + _)), <- (Z.shiftr_0_r z) at 1.
    apply (byte_shiftr_congr z _ 0 8); lia.
Qed.

Lemma be32_int32 (z : Z) : be32 (int32 z) = be32 z.
Proof.
  unfold be32, int32. rewrite wrap_signed_shift by lia.
  f_equal; [| f_equal; [| f_equal; [| f_equal]]].
  - apply (byte_shiftr_congr z _ 24 0); lia.
  - apply (byte_shiftr_congr z _ 16 8); lia.
  - apply (byte_shiftr_congr z _ 8 16); lia.
  - rewrite <- (Z.shiftr_0_r (z + _)), <- (Z.shiftr_0_r z) at 1.
    apply (byte_shiftr_congr z _ 0 24); lia.
Qed.

Lemma read_u16_be16 (z : Z) (rest : list byte) :
  read_u16 (be16 z ++ rest) = Some (z mod 65536).
Proof.
  unfold be16, read_u16. cbn [app]. rewrite !Z_of_byte_of_Z.
  rewrite Z.shiftr_div_pow2 by lia. change (2 ^ 8) with 256.
  f_equal. Z.to_euclidean_division_equations. lia.
Qed.

(** A count that fits an [i16] is read back as written. *)
Lemma read_i16_be16 (z : Z) (rest : list byte) :
  -32768 <= z < 32768 -> read_i16 (be16 z ++ rest) = Some z.
Proof.
  intros Hz. unfold read_i16. rewrite read_u16_be16.
  f_equal. unfold int16, wrap_signed. change (2 ^ (16 - 1)) with 32768.
  change (2 ^ 16) with 65536.
  Z.to_euclidean_division_equations. lia.
Qed.

(** Whatever the count, the field holds its low sixteen bits. *)
Lemma read_i16_be16_wraps (z : Z) (rest : list byte) :
  read_i16 (be16 z ++ rest) = Some (int16 z).
Proof.
  unfold read_i16. rewrite read_u16_be16. f_equal.
  unfold int16, wrap_signed. change (2 ^ (16 - 1)) with 32768.
  change (2 ^ 16) with 65536.
  Z.to_euclidean_division_equations. lia.
Qed.

Lemma length_list_byte_of_string (s : string) :
  length (list_byte_of_string s) = String.length s.
Proof.
  unfold list_byte_of_string. rewrite length_map.
  induction s as [| c s IH]; cbn; [reflexivity | now rewrite IH].
Qed.

(** ** The frame writer *)

Lemma AddBytes_AddBytes (a b : list byte) (w : Writer) :
  AddBytes b (AddBytes a w) = AddBytes (a ++ b) w.
Proof. unfold AddBytes. cbn. now rewrite app_assoc. Qed.

Lemma AddBytes_nil (w : Writer) : AddBytes [] w = w.
Proof. destruct w. unfold AddBytes. cbn. now rewrite app_nil_r. Qed.

Lemma AddBytes_Start (t : byte) (b : list byte) (w : Writer) :
  AddBytes b (Start t w) = {| mtype := t; payload := b; stream := stream w |}.
Proof. reflexivity. Qed.

Lemma End_sent (t : byte) (p s : list byte) :
  End {| mtype := t; payload := p; stream := s |}
  = (None, sent t p {| mtype := t; payload := p; stream := s |}).
Proof. reflexivity. Qed.

(** ** [Column.Define] and [Columns.Define] *)

Section DefineFacts.
Context {host Cell : Type}.
Implicit Types (s : Conn host Cell) (ctx : Context) (column : Column).

Lemma Column_Define_entry ctx column s :
  Column_Define ctx column s
  = (inr tt, {| writer := AddBytes (row_description_entry column) (writer s);
                types := types s |}).
Proof.
  unfold Column_Define, bind, on_writer. cbn [writer types].
  unfold AddString, AddNullTerminate, AddByte, AddInt32, AddInt16.
  rewrite !AddBytes_AddBytes, be32_int32, be16_int16.
  unfold row_description_entry. reflexivity.
Qed.

Lemma Define_each_entries ctx (columns : list Column) s :
  Define_each ctx columns s
  = (inr tt, {| writer := AddBytes (flat_map row_description_entry columns) (writer s);
                types := types s |}).
Proof.
  revert s. induction columns as [| column rest IH]; intros s.
  - cbn. rewrite AddBytes_nil. now destruct s.
  - cbn [Define_each flat_map]. unfold bind at 1.
    rewrite Column_Define_entry, IH. cbn [writer types].
    now rewrite AddBytes_AddBytes.
Qed.

(** C9. [Columns.Define] on an empty column set returns nil and leaves the
    writer as it was: nothing is started, nothing is written to the stream,
    not even a RowDescription with count 0. *)
Theorem Columns_Define_empty ctx s :
  returned (Columns_Define ctx [] s) = None
  /\ snd (Columns_Define ctx [] s) = s
  /\ stream (writer (snd (Columns_Define ctx [] s))) = stream (writer s).
Proof.
  assert (H : Columns_Define ctx [] s = (inr tt, s)) by reflexivity.
  rewrite H. repeat split.
Qed.

(** C5. For a non-empty column set [Columns.Define] returns nil and sends
    one RowDescription message whose payload is the count as an [i16]
    followed, for each column in order, by the null-terminated name,
    [table:i32], [attr:i16], [oid:i32], [width:i16], [type_mod:i32] and
    [format:i16], in that order. *)
Theorem Columns_Define_row_description ctx (columns : list Column) s :
  columns <> [] ->
  Columns_Define ctx columns s
  = (inr tt,
     {| writer := sent ServerRowDescription (row_description columns) (writer s);
        types := types s |}).
Proof.
  intros Hne. unfold Columns_Define.
  destruct columns as [| column rest]; [congruence |].
  cbn [length Nat.eqb].
  unfold bind at 1. unfold on_writer at 1. cbn [writer types].
  unfold bind at 1. unfold on_writer at 1. cbn [writer types].
  unfold bind at 1. rewrite Define_each_entries. cbn [writer types].
  unfold AddInt16. rewrite AddBytes_AddBytes, AddBytes_Start, be16_int16.
  unfold writer_End. cbn [writer types]. rewrite End_sent.
  unfold sent, row_description. reflexivity.
Qed.

(** C4, as the code has it. The [type_mod] field [Column.Define] writes is
    [-1] for every column, whatever its [TypeModifier]: the entry is the
    layout of [row_description_entry], whose [type_mod] bytes read [-1]. *)
Theorem Column_Define_type_mod ctx column s :
  Column_Define ctx column s
  = (inr tt, {| writer := AddBytes (row_description_entry column) (writer s);
                types := types s |})
  /\ entry_type_mod column (row_description_entry column) = Some (-1).
Proof.
  split; [apply Column_Define_entry |].
  unfold entry_type_mod, row_description_entry.
  rewrite <- length_list_byte_of_string.
  rewrite skipn_app, skipn_all2 by lia.
  replace (length (list_byte_of_string (Name column)) + 13
           - length (list_byte_of_string (Name column)))%nat with 13%nat by lia.
  reflexivity.
Qed.

End DefineFacts.

(** ** [Column.Write] *)

Section WriteFacts.
Context {host Cell : Type}.
Implicit Types (s : Conn host Cell) (ctx : Context) (column : Column).
Implicit Types (src : option host) (typed : DataType host Cell).

(** The registry after [Set] left [v] in the value object of [column]'s
    data type. *)
Local Abbreviation set_done s column typed v :=
  {| writer := writer s;
     types := <[Oid column := with_Value typed v]> (types s) |}.

Ltac enter_Column_Write Hlive Hinfo Hreg :=
  unfold Column_Write; rewrite Hlive;
  unfold bind at 1; unfold TypeInfo at 1; rewrite Hinfo, Hreg;
  unfold bind at 1; unfold Value_Set.

Lemma Column_Write_Set_error ctx column src s typed e v :
  Err ctx = None -> has_TypeInfo ctx = true ->
  types s !! Oid column = Some typed ->
  Set_ typed src (Value typed) = (Some e, v) ->
  Column_Write ctx column src s = (inl e, set_done s column typed v).
Proof.
  intros Hlive Hinfo Hreg Hset.
  enter_Column_Write Hlive Hinfo Hreg. now rewrite Hset.
Qed.

Lemma Column_Write_encode_error ctx column src s typed v bb e :
  Err ctx = None -> has_TypeInfo ctx = true ->
  types s !! Oid column = Some typed ->
  Set_ typed src (Value typed) = (None, v) ->
  Encoder (Format column) (with_Value typed v) = (bb, Some e) ->
  Column_Write ctx column src s = (inl e, set_done s column typed v).
Proof.
  intros Hlive Hinfo Hreg Hset Henc.
  enter_Column_Write Hlive Hinfo Hreg. now rewrite Hset, Henc.
Qed.

Lemma Column_Write_ok ctx column src s typed v bb :
  Err ctx = None -> has_TypeInfo ctx = true ->
  types s !! Oid column = Some typed ->
  Set_ typed src (Value typed) = (None, v) ->
  Encoder (Format column) (with_Value typed v) = (bb, None) ->
  Column_Write ctx column src s
  = (inr tt,
     {| writer := AddBytes (data_row_field src bb) (writer s);
        types := <[Oid column := with_Value typed v]> (types s) |}).
Proof.
  intros Hlive Hinfo Hreg Hset Henc.
  enter_Column_Write Hlive Hinfo Hreg. rewrite Hset, Henc.
  unfold bind, on_writer, AddInt32. cbn [writer types].
  rewrite AddBytes_AddBytes. unfold data_row_field.
  destruct src; [rewrite be32_int32 |]; reflexivity.
Qed.

(** Whatever [Column.Write] returns, it only appends to the message under
    construction, and appends nothing when it returns an error. *)
Lemma Column_Write_writer ctx column src s :
  match Column_Write ctx column src s with
  | (inl _, s') => writer s' = writer s
  | (inr _, s') => exists field, writer s' = AddBytes field (writer s)
  end.
Proof.
  destruct (Err ctx) as [e |] eqn:Hlive.
  { unfold Column_Write. now rewrite Hlive. }
  destruct (has_TypeInfo ctx) eqn:Hinfo.
  2:{ unfold Column_Write. rewrite Hlive. unfold bind, TypeInfo.
      now rewrite Hinfo. }
  destruct (types s !! Oid column) as [typed |] eqn:Hreg.
  2:{ unfold Column_Write. rewrite Hlive. unfold bind, TypeInfo.
      now rewrite Hinfo, Hreg. }
  destruct (Set_ typed src (Value typed)) as [[e |] v] eqn:Hset.
  { now rewrite (Column_Write_Set_error _ _ _ _ _ _ _ Hlive Hinfo Hreg Hset). }
  destruct (Encoder (Format column) (with_Value typed v)) as [bb [e |]] eqn:Henc.
  { now rewrite (Column_Write_encode_error _ _ _ _ _ _ _ _ Hlive Hinfo Hreg Hset Henc). }
  rewrite (Column_Write_ok _ _ _ _ _ _ _ Hlive Hinfo Hreg Hset Henc).
  now exists (data_row_field src bb).
Qed.

(** C10. In a cancelled context [Column.Write] returns the context's error
    at once: the registry is not consulted, no value object is touched, and
    the writer is as it was. *)
Theorem Column_Write_cancelled ctx e column src s :
  Err ctx = Some e ->
  Column_Write ctx column src s = (inl e, s).
Proof.
  intros Hcancelled. unfold Column_Write.
  rewrite Hcancelled. reflexivity.
Qed.

(** C8. A column whose OID has no data type in the connection's registry
    makes [Column.Write] fail and leaves writer and registry as they were;
    in a live context the error is the unknown-data-type one. *)
Theorem Column_Write_unknown_type ctx column src s :
  has_TypeInfo ctx = true ->
  types s !! Oid column = None ->
  (exists e, Column_Write ctx column src s = (inl e, s))
  /\ (Err ctx = None ->
      Column_Write ctx column src s = (inl ErrUnknownDataType, s)).
Proof.
  intros Hinfo Hreg.
  assert (Hlive : Err ctx = None ->
                  Column_Write ctx column src s = (inl ErrUnknownDataType, s)).
  { intros Hlive. unfold Column_Write. rewrite Hlive.
    unfold bind, TypeInfo. now rewrite Hinfo, Hreg. }
  split; [| exact Hlive].
  destruct (Err ctx) as [e |] eqn:Hctx.
  - exists e. unfold Column_Write. now rewrite Hctx.
  - exists ErrUnknownDataType. now apply Hlive.
Qed.

End WriteFacts.

(** ** [Columns.Write] *)

Section RowFacts.
Context {host Cell : Type}.
Implicit Types (s : Conn host Cell) (ctx : Context) (column : Column).
Implicit Types (columns : list Column) (srcs : list (option host)).

(** The state [Columns.Write] runs its loop in: the DataRow message is
    started and holds the count. *)
Local Abbreviation started s columns :=
  {| writer := AddInt16 (int16 (Z.of_nat (length columns)))
                        (Start ServerDataRow (writer s));
     types := types s |}.

Lemma Write_each_writer ctx columns : forall index srcs s,
  exists fields,
    writer (snd (Write_each ctx index columns srcs s)) = AddBytes fields (writer s).
Proof.
  induction columns as [| column rest IH]; intros index srcs s.
  - exists []. cbn. now rewrite AddBytes_nil.
  - cbn [Write_each]. destruct (srcs !! index) as [src |].
    2:{ exists []. cbn. now rewrite AddBytes_nil. }
    unfold bind. pose proof (Column_Write_writer ctx column src s) as Hw.
    destruct (Column_Write ctx column src s) as [[e | []] s1].
    + exists []. cbn. now rewrite AddBytes_nil.
    + destruct Hw as [field Hfield].
      destruct (IH (S index) srcs s1) as [fields Hfields].
      exists (field ++ fields).
      now rewrite Hfields, Hfield, AddBytes_AddBytes.
Qed.

Lemma Columns_Write_mismatch ctx columns srcs s :
  length srcs <> length columns ->
  Columns_Write ctx columns srcs s
  = (inl (ErrUnexpectedColumns (length columns) (length srcs)), s).
Proof.
  intros Hne. unfold Columns_Write.
  destruct (Nat.eqb_spec (length srcs) (length columns)) as [Heq | _];
    [contradiction | reflexivity].
Qed.

(** With as many values as columns, [Columns.Write] returns what its loop
    over the columns returns: [End] does not fail. *)
Lemma Columns_Write_returned ctx columns srcs s :
  length srcs = length columns ->
  returned (Columns_Write ctx columns srcs s)
  = returned (Write_each ctx 0 columns srcs (started s columns)).
Proof.
  intros Heq. unfold Columns_Write.
  rewrite (proj2 (Nat.eqb_eq _ _) Heq). cbn [negb].
  unfold bind at 1. unfold on_writer at 1. cbn [writer types].
  unfold bind at 1. unfold on_writer at 1. cbn [writer types].
  unfold bind.
  destruct (Write_each ctx 0 columns srcs _) as [[e | []] s1];
    reflexivity.
Qed.

(** An error leaves the stream as it was; a nil return has sent exactly one
    DataRow message, whose payload starts with the count. *)
Lemma Columns_Write_cases ctx columns srcs s :
  match Columns_Write ctx columns srcs s with
  | (inl _, s') => stream (writer s') = stream (writer s)
  | (inr _, s') =>
    length srcs = length columns /\
    exists fields,
      writer s' = sent ServerDataRow
                       (be16 (Z.of_nat (length columns)) ++ fields) (writer s)
  end.
Proof.
  destruct (Nat.eq_dec (length srcs) (length columns)) as [Heq | Hne].
  2:{ now rewrite Columns_Write_mismatch. }
  unfold Columns_Write.
  rewrite (proj2 (Nat.eqb_eq _ _) Heq). cbn [negb].
  unfold bind at 1. unfold on_writer at 1. cbn [writer types].
  unfold bind at 1. unfold on_writer at 1. cbn [writer types].
  unfold bind.
  destruct (Write_each_writer ctx columns 0%nat srcs (started s columns))
    as [fields Hfields].
  destruct (Write_each ctx 0 columns srcs _) as [[e | []] s1];
    cbn [snd writer] in Hfields.
  - now rewrite Hfields.
  - split; [assumption |]. exists fields.
    unfold writer_End. rewrite Hfields.
    unfold AddInt16. rewrite AddBytes_AddBytes, AddBytes_Start, be16_int16.
    reflexivity.
Qed.

(** The count field of a sent message is the first [i16] of its payload. *)
Lemma message_count_sent (t : byte) (count : Z) (fields : list byte) :
  message_count (message t (be16 count ++ fields)) = Some (int16 count).
Proof.
  unfold message_count, message, be32.
  cbn [app skipn]. apply read_i16_be16_wraps.
Qed.

(** Rows of nil values: when the data type of [column] takes nil and
    encodes it as no bytes, the loop over [n] such columns returns nil. *)
Lemma Write_each_nil ctx column typed null (n : nat) : forall index srcs s,
  Err ctx = None -> has_TypeInfo ctx = true ->
  (forall old, Set_ typed None old = (None, null)) ->
  Encoder (Format column) (with_Value typed null) = ([], None) ->
  (exists c, types s !! Oid column = Some (with_Value typed c)) ->
  (forall i, (i < n)%nat -> srcs !! (index + i)%nat = Some None) ->
  returned (Write_each ctx index (replicate n column) srcs s) = None.
Proof.
  induction n as [| n IH]; intros index srcs s Hlive Hinfo Hset Henc [c Hreg] Hsrcs.
  - reflexivity.
  - assert (Hhere : srcs !! index = Some None).
    { rewrite <- (Nat.add_0_r index). apply Hsrcs. lia. }
    cbn [replicate Write_each]. rewrite Hhere.
    unfold bind.
    rewrite (Column_Write_ok ctx column None s (with_Value typed c) null []
               Hlive Hinfo Hreg (Hset _) Henc).
    apply IH; try assumption.
    + exists null. cbn [types]. now rewrite lookup_insert_eq.
    + intros i Hi. replace (S index + i)%nat with (index + S i)%nat by lia.
      apply Hsrcs. lia.
Qed.

End RowFacts.

Section RowTheorems.
Context {host Cell : Type}.
Implicit Types (s : Conn host Cell) (ctx : Context) (column : Column).
Implicit Types (columns : list Column) (srcs : list (option host)).
Implicit Types (typed : DataType host Cell).

(** C1, as the code has it. A nil value does not bypass the data type:
    [Column.Write] looks it up and calls [Set(nil)] and the encoder of the
    column's format. In a live context whose registry holds the column's
    type: when the type takes nil and encodes it as no bytes,
    [Column.Write] returns nil and appends the [-1:i32] sentinel and nothing
    else, and a one-column row written with nil is one DataRow with count 1,
    the [-1:i32] prefix and no value bytes; when [Set(nil)] or the encoder
    fails, [Column.Write] returns that error and appends nothing. *)
Theorem Column_Write_nil ctx column s typed :
  Err ctx = None -> has_TypeInfo ctx = true ->
  types s !! Oid column = Some typed ->
  (forall v,
     Set_ typed None (Value typed) = (None, v) ->
     Encoder (Format column) (with_Value typed v) = ([], None) ->
     Column_Write ctx column None s
     = (inr tt, {| writer := AddInt32 (-1) (writer s);
                   types := <[Oid column := with_Value typed v]> (types s) |})
     /\ Columns_Write ctx [column] [None] s
        = (inr tt, {| writer := sent ServerDataRow (be16 1 ++ be32 (-1)) (writer s);
                      types := <[Oid column := with_Value typed v]> (types s) |}))
  /\ (forall e v,
        Set_ typed None (Value typed) = (Some e, v) ->
        returned (Column_Write ctx column None s) = Some e
        /\ writer (snd (Column_Write ctx column None s)) = writer s)
  /\ (forall e v bb,
        Set_ typed None (Value typed) = (None, v) ->
        Encoder (Format column) (with_Value typed v) = (bb, Some e) ->
        returned (Column_Write ctx column None s) = Some e
        /\ writer (snd (Column_Write ctx column None s)) = writer s).
Proof.
  intros Hlive Hinfo Hreg. split; [| split].
  - intros v Hset Henc.
    pose proof (Column_Write_ok ctx column None s typed v [] Hlive Hinfo Hreg Hset Henc)
      as Hone.
    unfold data_row_field in Hone. rewrite app_nil_r in Hone.
    split; [exact Hone |].
    unfold Columns_Write. cbn [length Nat.eqb negb].
    unfold bind at 1. unfold on_writer at 1. cbn [writer types].
    unfold bind at 1. unfold on_writer at 1. cbn [writer types].
    unfold bind at 1. cbn [Write_each lookup list_lookup].
    unfold bind at 1.
    match goal with
    | |- context [Column_Write ctx column None ?s0] =>
      rewrite (Column_Write_ok ctx column None s0 typed v [] Hlive Hinfo Hreg Hset Henc)
    end.
    cbn [ret writer types]. unfold writer_End. cbn [writer types].
    unfold data_row_field, AddInt16. rewrite app_nil_r.
    rewrite AddBytes_AddBytes, AddBytes_Start. reflexivity.
  - intros e v Hset.
    now rewrite (Column_Write_Set_error ctx column None s typed e v Hlive Hinfo Hreg Hset).
  - intros e v bb Hset Henc.
    now rewrite (Column_Write_encode_error ctx column None s typed v bb e
                   Hlive Hinfo Hreg Hset Henc).
Qed.

(** C2, as the code has it. When the number of values differs from the
    number of declared columns [Columns.Write] returns the column-count
    error and touches nothing. Whenever it returns an error the stream is as
    it was: no DataRow is sent. When it returns nil it has sent exactly one
    DataRow, whose payload starts with the count field; that field reads the
    number of declared columns as long as this number fits an [i16] (at most
    32767 columns). *)
Theorem Columns_Write_count ctx columns srcs s :
  (length srcs <> length columns ->
   Columns_Write ctx columns srcs s
   = (inl (ErrUnexpectedColumns (length columns) (length srcs)), s))
  /\ (forall e s',
        Columns_Write ctx columns srcs s = (inl e, s') ->
        stream (writer s') = stream (writer s))
  /\ (forall s',
        Columns_Write ctx columns srcs s = (inr tt, s') ->
        exists fields,
          stream (writer s')
          = stream (writer s)
            ++ message ServerDataRow (be16 (Z.of_nat (length columns)) ++ fields)
          /\ (Z.of_nat (length columns) <= 32767 ->
              message_count
                (message ServerDataRow (be16 (Z.of_nat (length columns)) ++ fields))
              = Some (Z.of_nat (length columns)))).
Proof.
  split; [apply Columns_Write_mismatch | split].
  - intros e s' Hrun. pose proof (Columns_Write_cases ctx columns srcs s) as Hc.
    now rewrite Hrun in Hc.
  - intros s' Hrun. pose proof (Columns_Write_cases ctx columns srcs s) as Hc.
    rewrite Hrun in Hc. destruct Hc as [_ [fields Hsent]].
    exists fields. split.
    + now rewrite Hsent.
    + intros Hfits. rewrite message_count_sent. f_equal.
      unfold int16, wrap_signed. change (2 ^ (16 - 1)) with 32768.
      change (2 ^ 16) with 65536.
      rewrite Z.mod_small by lia. lia.
Qed.

End RowTheorems.

Section NilRows.
Context {host Cell : Type}.

(** A row of [n] nil values for [n] columns of one type that takes nil and
    encodes it as no bytes: [Columns.Write] returns nil and has sent one
    DataRow whose payload starts with the count. *)
Lemma Columns_Write_nil_row (ctx : Context) (column : Column)
    (typed : DataType host Cell) (null : Cell) (n : nat) (s : Conn host Cell) :
  Err ctx = None -> has_TypeInfo ctx = true ->
  (forall old, Set_ typed None old = (None, null)) ->
  Encoder (Format column) (with_Value typed null) = ([], None) ->
  (exists c, types s !! Oid column = Some (with_Value typed c)) ->
  exists s' fields,
    Columns_Write ctx (replicate n column) (replicate n None) s = (inr tt, s')
    /\ writer s' = sent ServerDataRow (be16 (Z.of_nat n) ++ fields) (writer s).
Proof.
  intros Hlive Hinfo Hset Henc Hreg.
  assert (Hlen : length (replicate n (@None host)) = length (replicate n column)).
  { rewrite !length_replicate. reflexivity. }
  pose proof (Columns_Write_cases ctx (replicate n column) (replicate n None) s)
    as Hcases.
  pose proof (Columns_Write_returned ctx (replicate n column) (replicate n None) s
                Hlen) as Hret.
  match type of Hret with
  | _ = returned (Write_each _ _ _ _ ?s0) =>
    rewrite (Write_each_nil ctx column typed null n 0 (replicate n None) s0
               Hlive Hinfo Hset Henc Hreg) in Hret
  end.
  2:{ intros i Hi. apply lookup_replicate_2. exact Hi. }
  destruct (Columns_Write ctx (replicate n column) (replicate n None) s)
    as [[e | []] s'].
  - discriminate Hret.
  - destruct Hcases as [_ [fields Hsent]]. exists s', fields.
    split; [reflexivity |]. rewrite Hsent, length_replicate. reflexivity.
Qed.

End NilRows.

Lemma message_count_first_sent (t : byte) (count : Z) (fields : list byte)
    (w : Writer) :
  stream w = [] ->
  message_count (stream (sent t (be16 count ++ fields) w)) = Some (int16 count).
Proof.
  intros Hfresh. unfold sent. cbn [stream]. rewrite Hfresh.
  apply message_count_sent.
Qed.

(** ** The row writer on the tests' columns *)

(** The RowDescription of [TestServerNULLValues]: one text column. *)
Lemma Columns_Define_row_description_witness :
  stream (writer (snd (Columns_Define Sample.ctx [Sample.name_column] Sample.conn)))
  = message ServerRowDescription
      (be16 1 ++ list_byte_of_string "name" ++ ["000"%byte] ++ be32 0 ++ be16 0
       ++ be32 25 ++ be16 256 ++ be32 (-1) ++ be16 0).
Proof.
  rewrite (Columns_Define_row_description Sample.ctx [Sample.name_column] Sample.conn)
    by discriminate.
  reflexivity.
Defined.

(** The second row of [TestServerNULLValues]: [(nil,)]. *)
Lemma Column_Write_nil_witness :
  Column_Write Sample.ctx Sample.name_column None Sample.conn
  = (inr tt,
     {| writer := AddInt32 (-1) Sample.fresh_writer;
        types := <[Sample.T_text := with_Value Sample.Text Sample.Null]>
                   Sample.registry |})
  /\ stream (writer (snd (Columns_Write Sample.ctx [Sample.name_column] [None]
                            Sample.conn)))
     = message ServerDataRow (be16 1 ++ be32 (-1)).
Proof.
  destruct (Column_Write_nil Sample.ctx Sample.name_column Sample.conn Sample.Text
              eq_refl eq_refl eq_refl) as [Hnil _].
  destruct (Hnil Sample.Null eq_refl eq_refl) as [Hcolumn Hrow].
  split; [exact Hcolumn |]. rewrite Hrow. reflexivity.
Defined.

(** C1 as stated fails: with nil, the data type is still looked up and
    invoked. A registered type whose [Set] rejects nil makes [Column.Write]
    return that error and write no sentinel; an unregistered OID makes it
    return the unknown-data-type error; and for the text type, whose value
    object starts undefined, the call leaves the value object null. *)
Lemma Column_Write_nil_invokes_data_type :
  (returned (Column_Write Sample.ctx Sample.strict_column None Sample.conn)
   = Some (ErrCodec "cannot convert nil")
   /\ writer (snd (Column_Write Sample.ctx Sample.strict_column None Sample.conn))
      = Sample.fresh_writer)
  /\ (returned (Column_Write Sample.ctx Sample.point_column None Sample.conn)
      = Some ErrUnknownDataType
      /\ writer (snd (Column_Write Sample.ctx Sample.point_column None Sample.conn))
         = Sample.fresh_writer)
  /\ (Value <$> types Sample.conn !! Sample.T_text = Some Sample.Undefined
      /\ Value <$> types (snd (Column_Write Sample.ctx Sample.name_column None
                                 Sample.conn)) !! Sample.T_text
         = Some Sample.Null).
Proof. repeat split; vm_compute; reflexivity. Qed.

(** The first row of [TestServerWritingResult], without its third column. *)
Lemma Columns_Write_count_witness :
  exists fields,
    stream (writer (snd (Columns_Write Sample.ctx
                           [Sample.name_column; Sample.member_column]
                           [Some (Sample.HString "John"); Some (Sample.HBool true)]
                           Sample.conn)))
    = message ServerDataRow (be16 2 ++ fields)
    /\ message_count (message ServerDataRow (be16 2 ++ fields)) = Some 2.
Proof.
  destruct (Columns_Write_count Sample.ctx
              [Sample.name_column; Sample.member_column]
              [Some (Sample.HString "John"); Some (Sample.HBool true)]
              Sample.conn) as (_ & _ & Hsent).
  destruct (Columns_Write Sample.ctx _ _ Sample.conn) as [[e | []] s'] eqn:Hrun.
  - vm_compute in Hrun. discriminate Hrun.
  - destruct (Hsent s' eq_refl) as [fields [Hstream Hcount]].
    exists fields. split; [exact Hstream | apply Hcount; cbn; lia].
Defined.

(** C2 as stated fails on the count: a row of 65536 declared text columns
    and as many nil values is accepted, and the count field of the DataRow
    it sends reads 0. *)
Lemma Columns_Write_count_wraps :
  exists s',
    Columns_Write Sample.ctx (replicate many Sample.name_column)
                  (replicate many None) Sample.conn = (inr tt, s')
    /\ Z.of_nat (length (replicate many Sample.name_column)) = 65536
    /\ message_count (stream (writer s')) = Some 0.
Proof.
  assert (Hmany : Z.of_nat many = 65536).
  { unfold many. apply Z2Nat.id. lia. }
  destruct (Columns_Write_nil_row Sample.ctx Sample.name_column Sample.Text
              Sample.Null many Sample.conn)
    as (s' & fields & Hrun & Hsent).
  - reflexivity.
  - reflexivity.
  - intros old. reflexivity.
  - reflexivity.
  - exists Sample.Undefined. reflexivity.
  - exists s'. split; [exact Hrun | split].
    + rewrite length_replicate. exact Hmany.
    + rewrite Hsent, Hmany.
      apply (message_count_first_sent ServerDataRow 65536 fields).
      reflexivity.
Qed.

(** C4 as stated fails: a column whose [TypeModifier] is given as 20 gets
    the [type_mod] field [-1]. *)
Lemma Column_Define_ignores_TypeModifier :
  TypeModifier Sample.modified_column = 20
  /\ entry_type_mod Sample.modified_column
       (payload (writer (snd (Column_Define Sample.ctx Sample.modified_column
                                Sample.conn))))
     = Some (-1).
Proof. split; vm_compute; reflexivity. Qed.

(** A column of a type the registry does not hold. *)
Lemma Column_Write_unknown_type_witness :
  Column_Write Sample.ctx Sample.point_column (Some (Sample.HString "(1,2)"))
               Sample.conn
  = (inl ErrUnknownDataType, Sample.conn).
Proof.
  apply (Column_Write_unknown_type Sample.ctx Sample.point_column
           (Some (Sample.HString "(1,2)")) Sample.conn);
    reflexivity.
Defined.

(** A row written after the query was cancelled. *)
Lemma Column_Write_cancelled_witness :
  Column_Write Sample.cancelled Sample.name_column (Some (Sample.HString "John"))
               Sample.conn
  = (inl Canceled, Sample.conn).
Proof.
  apply (Column_Write_cancelled Sample.cancelled Canceled Sample.name_column
           (Some (Sample.HString "John")) Sample.conn).
  reflexivity.
Defined.

(** ** Server options *)

Import Options.

Section OptionFacts.
Context {DataWriter : Type}.
Implicit Types (srv : Server DataWriter) (hooks : list SessionHandler).

(** [Session] options applied to a server that has a session function:
    none fails, [Parse] is untouched, and the resulting session function
    runs the old one and then the hooks, in order. *)
Lemma apply_Session_options hooks : forall srv (first : SessionHandler),
  srv_Session srv = Some first ->
  exists srv' session,
    apply_options (map Session hooks) srv = (None, srv')
    /\ srv_Parse srv' = srv_Parse srv
    /\ srv_Session srv' = Some session
    /\ forall ctx, session ctx = pipeline (first :: hooks) ctx.
Proof.
  induction hooks as [| fn rest IH]; intros srv first Hfirst.
  - exists srv, first. cbn. repeat split; try assumption.
    intros ctx. destruct (first ctx) as [ctx' [e |]]; reflexivity.
  - cbn [map apply_options]. unfold Session at 1. rewrite Hfirst.
    match goal with
    | |- context [apply_options (map Session rest) ?srv1] =>
      destruct (IH srv1 _ eq_refl)
        as (srv' & session & Hrun & Hparse & Hsession & Hpipe)
    end.
    exists srv', session. rewrite Hrun.
    repeat split; try assumption.
    intros ctx. rewrite Hpipe. cbn [pipeline].
    destruct (first ctx) as [ctx' [e |]]; [reflexivity |].
    destruct (fn ctx') as [ctx'' [e |]]; reflexivity.
Qed.

Lemma NewServer_Session_options hooks :
  exists srv session,
    NewServer (map Session hooks) = (Some srv, None)
    /\ srv_Parse srv = None
    /\ srv_Session srv = Some session
    /\ forall ctx, session ctx = pipeline hooks ctx.
Proof.
  destruct (apply_Session_options hooks (@default_Server DataWriter)
              (fun ctx => (ctx, None)) eq_refl)
    as (srv & session & Hrun & Hparse & Hsession & Hpipe).
  exists srv, session. unfold NewServer. rewrite Hrun.
  repeat split; assumption.
Qed.

Lemma pipeline_hooks (gs : list (Context -> Context)) : forall ctx,
  pipeline (map hook gs) ctx = (fold_left (fun c g => g c) gs ctx, None).
Proof.
  induction gs as [| g gs IH]; intros ctx; [reflexivity |].
  cbn [map pipeline fold_left]. unfold hook at 1. apply IH.
Qed.




(** C7. [Session] options chain: for hooks [f1 ... fn] passed to
    [NewServer], the server's [Session] runs them in order, each on the
    context the previous one returned, and the last context is the result
    (a hook that returns an error ends the chain with it); for hooks that
    cannot fail this is [fn (... (f2 (f1 ctx)))]. *)
Theorem Session_options_chain hooks :
  (exists srv session,
     NewServer (map Session hooks) = (Some srv, None)
     /\ srv_Session srv = Some session
     /\ forall ctx, session ctx = pipeline hooks ctx)
  /\ (forall (gs : list (Context -> Context)) ctx,
        pipeline (map hook gs) ctx = (fold_left (fun c g => g c) gs ctx, None)).
Proof.
  split.
  - destruct (NewServer_Session_options hooks)
      as (srv & session & Hrun & _ & Hsession & Hpipe).
    exists srv, session. repeat split; assumption.
  - intros gs ctx. apply pipeline_hooks.
Qed.

End OptionFacts.

(** ** The tests of [options_test.go] on the model *)


(** [TestInvalidOptions]: on [&Server{}], [Parse] then [SimpleQuery]; one
    of the two returns an error. *)
Example TestInvalidOptions (ParseParameters : string -> list Z)
    (p : ParseFn unit) (q : option (SimpleQueryFn unit)) :
  exists e,
    fst (apply_options [Parse (Some p); SimpleQuery ParseParameters q]
           empty_Server) = Some e.
Proof. eexists. reflexivity. Qed.

(** [TestSimpleQueryParameters], without its parameter lists: on
    [&Server{}], [SimpleQuery(nil)] returns nil and the [Parse] it sets
    returns a statement and no error. *)
Example TestSimpleQueryParameters (ParseParameters : string -> list Z)
    (query : string) :
  exists parse,
    SimpleQuery ParseParameters None (@empty_Server unit)
    = (None, {| srv_Parse := Some parse; srv_Session := None |})
    /\ fst (fst (parse Background query)) = Some (simple_statement None query)
    /\ snd (parse Background query) = None.
Proof. eexists. repeat split. Qed.

(** [TestSessionHandler], case "nested": the value set by the second hook
    is in the context the server's [Session] returns. *)
Example TestSessionHandler :
  exists srv session,
    @NewServer unit
      [Session (fun ctx => (ctx, None));
       Session (fun ctx => (WithValue ctx "key" "Super Secret Session ID", None))]
    = (Some srv, None)
    /\ srv_Session srv = Some session
    /\ (let (ctx, err) := session Background in
        err = None /\ Value_of ctx "key" = Some "Super Secret Session ID"%string).
Proof. eexists _, _. repeat split. Qed.

(** * Further properties of the row writer *)

Import Client.

(** ** Reading integers and strings back *)

Lemma unsigned_be32 (z : Z) :
  ((Z_of_byte (byte_of_Z (Z.shiftr z 24)) * 256
    + Z_of_byte (byte_of_Z (Z.shiftr z 16))) * 256
   + Z_of_byte (byte_of_Z (Z.shiftr z 8))) * 256
  + Z_of_byte (byte_of_Z z)
  = z mod 4294967296.
Proof.
  rewrite !Z_of_byte_of_Z, !Z.shiftr_div_pow2 by lia.
  change (2 ^ 24) with 16777216. change (2 ^ 16) with 65536.
  change (2 ^ 8) with 256.
  Z.to_euclidean_division_equations. lia.
Qed.

Lemma read_u32_be32 (z : Z) (rest : list byte) :
  0 <= z < 4294967296 -> read_u32 (be32 z ++ rest) = Some z.
Proof.
  intros Hz. unfold read_u32, be32. cbn [app].
  rewrite unsigned_be32, Z.mod_small by lia. reflexivity.
Qed.

Lemma read_i32_be32 (z : Z) (rest : list byte) :
  -2147483648 <= z < 2147483648 -> read_i32 (be32 z ++ rest) = Some z.
Proof.
  intros Hz. unfold read_i32, be32. cbn [app].
  rewrite unsigned_be32. f_equal.
  unfold int32, wrap_signed. change (2 ^ (32 - 1)) with 2147483648.
  change (2 ^ 32) with 4294967296.
  Z.to_euclidean_division_equations. lia.
Qed.

Lemma split_cstring_terminated (name rest : list byte) :
  ~ In "000"%byte name ->
  split_cstring (name ++ "000"%byte :: rest) = Some (name, rest).
Proof.
  induction name as [| b name IH]; intros Hfree.
  - reflexivity.
  - cbn [app split_cstring].
    destruct (Byte.eqb b "000") eqn:Hb.
    + exfalso. apply Hfree. left. now apply Byte.byte_dec_bl.
    + rewrite IH; [reflexivity |]. intros Hin. apply Hfree. now right.
Qed.

(** ** A RowDescription read back *)

Lemma entry_fields_at (t a o w m f : Z) (rest : list byte) :
  let fields := be32 t ++ be16 a ++ be32 o ++ be16 w ++ be32 m ++ be16 f ++ rest in
  skipn 4 fields = be16 a ++ be32 o ++ be16 w ++ be32 m ++ be16 f ++ rest
  /\ skipn 6 fields = be32 o ++ be16 w ++ be32 m ++ be16 f ++ rest
  /\ skipn 10 fields = be16 w ++ be32 m ++ be16 f ++ rest
  /\ skipn 12 fields = be32 m ++ be16 f ++ rest
  /\ skipn 16 fields = be16 f ++ rest
  /\ skipn 18 fields = rest.
Proof. repeat split. Qed.

Lemma FormatCode_read_back (f : FormatCode) (rest : list byte) :
  read_i16 (be16 (FormatCode_int16 f) ++ rest) = Some (FormatCode_int16 f)
  /\ FormatCode_of_int16 (FormatCode_int16 f) = Some f.
Proof.
  split; [| now destruct f].
  apply read_i16_be16. destruct f; cbn; lia.
Qed.

Lemma parse_entry_written (column : Column) (rest : list byte) :
  well_formed column ->
  parse_entry (row_description_entry column ++ rest) = Some (described column, rest).
Proof.
  intros (Htable & Hattr & Hoid & Hwidth & Hname).
  unfold row_description_entry. rewrite <- !app_assoc. cbn [app].
  unfold parse_entry. rewrite (split_cstring_terminated _ _ Hname).
  destruct (entry_fields_at (Table column) (AttrNo column) (Oid column)
              (Width column) (-1) (FormatCode_int16 (Format column)) rest)
    as (H4 & H6 & H10 & H12 & H16 & H18).
  rewrite H4, H6, H10, H12, H16, H18.
  rewrite (read_i32_be32 (Table column)) by assumption.
  rewrite (read_i16_be16 (AttrNo column)) by assumption.
  rewrite (read_u32_be32 (Oid column)) by assumption.
  rewrite (read_i16_be16 (Width column)) by assumption.
  rewrite (read_i32_be32 (-1)) by lia.
  destruct (FormatCode_read_back (Format column) rest) as [Hread Hcode].
  rewrite Hread, Hcode, string_of_list_byte_of_string. reflexivity.
Qed.

Lemma parse_entries_written (columns : list Column) :
  Forall well_formed columns ->
  parse_entries (length columns) (flat_map row_description_entry columns)
  = Some (map described columns).
Proof.
  induction 1 as [| column rest Hcolumn _ IH]; [reflexivity |].
  cbn [length flat_map parse_entries map].
  now rewrite (parse_entry_written column _ Hcolumn), IH.
Qed.

Lemma parse_row_description_written (columns : list Column) :
  Z.of_nat (length columns) <= 32767 ->
  Forall well_formed columns ->
  parse_row_description (row_description columns) = Some (map described columns).
Proof.
  intros Hfits Hwf. unfold parse_row_description, row_description.
  rewrite read_i16_be16 by lia.
  destruct (Z.ltb_spec (Z.of_nat (length columns)) 0) as [Hneg | _]; [lia |].
  rewrite Nat2Z.id. change (skipn 2 (be16 ?z ++ ?r)) with r.
  now apply parse_entries_written.
Qed.

Section DefineSent.
Context {host Cell : Type}.
Implicit Types (s : Conn host Cell) (ctx : Context).

(** What [Columns.Define] does to the state, for every column set. *)
Lemma Columns_Define_run ctx (columns : list Column) s :
  Columns_Define ctx columns s
  = (inr tt,
     match columns with
     | [] => s
     | _ :: _ =>
       {| writer := sent ServerRowDescription (row_description columns) (writer s);
          types := types s |}
     end).
Proof.
  destruct columns as [| column rest]; [reflexivity |].
  unfold Columns_Define. cbn [length Nat.eqb].
  unfold bind at 1. unfold on_writer at 1. cbn [writer types].
  unfold bind at 1. unfold on_writer at 1. cbn [writer types].
  unfold bind at 1. rewrite Define_each_entries. cbn [writer types].
  unfold AddInt16. rewrite AddBytes_AddBytes, AddBytes_Start, be16_int16.
  reflexivity.
Qed.

(** X1. The RowDescription sent by [Columns.Define] for a non-empty set of
    at most 32767 well-formed columns reads back, entry by entry, as the
    declared columns: names, table ids, attribute numbers, OIDs, widths and
    formats as declared, the type modifier as [-1]. *)
Theorem Columns_Define_read_back ctx (columns : list Column) s :
  columns <> [] ->
  Z.of_nat (length columns) <= 32767 ->
  Forall well_formed columns ->
  exists p,
    Columns_Define ctx columns s
    = (inr tt, {| writer := sent ServerRowDescription p (writer s);
                  types := types s |})
    /\ parse_row_description p = Some (map described columns).
Proof.
  intros Hne Hfits Hwf. exists (row_description columns). split.
  - rewrite Columns_Define_run. destruct columns; [congruence | reflexivity].
  - now apply parse_row_description_written.
Qed.

(** [Columns.Define] does not look at its context and cannot fail: it
    returns nil in every context, cancelled or not, never touches the type
    registry, and what it adds to the stream is one RowDescription message
    for a non-empty column set and nothing for an empty one. *)
Theorem Columns_Define_total ctx (columns : list Column) s :
  returned (Columns_Define ctx columns s) = None
  /\ types (snd (Columns_Define ctx columns s)) = types s
  /\ stream (writer (snd (Columns_Define ctx columns s)))
     = stream (writer s)
       ++ match columns with
          | [] => []
          | _ :: _ => message ServerRowDescription (row_description columns)
          end.
Proof.
  rewrite Columns_Define_run. cbn [returned fst snd].
  destruct columns; cbn [writer types sent stream];
    repeat split; now rewrite ?app_nil_r.
Qed.

End DefineSent.

(** ** What [Column.Write] keeps and what it leaves *)

Section RegistryFacts.
Context {host Cell : Type}.
Implicit Types (m : gmap Z (DataType host Cell)) (typed : DataType host Cell).

Lemma with_Value_same typed : with_Value typed (Value typed) = typed.
Proof. now destruct typed. Qed.

Lemma same_types_refl m : same_types m m.
Proof.
  intros oid. destruct (m !! oid) as [typed |] eqn:Hoid; [| reflexivity].
  exists (Value typed). now rewrite with_Value_same.
Qed.

Lemma same_types_trans m1 m2 m3 :
  same_types m1 m2 -> same_types m2 m3 -> same_types m1 m3.
Proof.
  intros H12 H23 oid. specialize (H12 oid). specialize (H23 oid).
  destruct (m1 !! oid) as [typed |].
  - destruct H12 as [v Hv]. rewrite Hv in H23. exact H23.
  - now rewrite H12 in H23.
Qed.

Lemma same_types_insert m oid typed v :
  m !! oid = Some typed -> same_types m (<[oid := with_Value typed v]> m).
Proof.
  intros Hoid other. destruct (decide (oid = other)) as [<- | Hne].
  - rewrite Hoid, lookup_insert_eq. now exists v.
  - rewrite lookup_insert_ne by assumption. apply same_types_refl.
Qed.

(** The same OIDs are registered before and after. *)
Lemma same_types_registered m m' oid :
  same_types m m' -> (is_Some (m' !! oid) <-> is_Some (m !! oid)).
Proof.
  intros Hsame. specialize (Hsame oid).
  destruct (m !! oid) as [typed |].
  - destruct Hsame as [v ->]. split; eauto.
  - rewrite Hsame. reflexivity.
Qed.

End RegistryFacts.

Section WriteInversion.
Context {host Cell : Type}.
Implicit Types (s : Conn host Cell) (ctx : Context) (column : Column).
Implicit Types (src : option host) (typed : DataType host Cell).

(** Every way [Column.Write] can end: an error before the data type is
    invoked (state untouched), an error of [Set] or of the encoder (only
    the value object touched), or nil with one field appended. *)
Lemma Column_Write_ends ctx column src s :
  (exists e, Column_Write ctx column src s = (inl e, s))
  \/ exists typed v,
       Err ctx = None /\ has_TypeInfo ctx = true
       /\ types s !! Oid column = Some typed
       /\ ((exists e,
              Column_Write ctx column src s
              = (inl e, {| writer := writer s;
                           types := <[Oid column := with_Value typed v]> (types s) |}))
           \/ (exists bb,
                 Encoder (Format column) (with_Value typed v) = (bb, None)
                 /\ Column_Write ctx column src s
                    = (inr tt,
                       {| writer := AddBytes (data_row_field src bb) (writer s);
                          types := <[Oid column := with_Value typed v]> (types s) |}))).
Proof.
  destruct (Err ctx) as [e |] eqn:Hlive.
  { left. exists e. unfold Column_Write. now rewrite Hlive. }
  destruct (has_TypeInfo ctx) eqn:Hinfo.
  2:{ left. exists ErrNoConnInfo. unfold Column_Write. rewrite Hlive.
      unfold bind, TypeInfo. now rewrite Hinfo. }
  destruct (types s !! Oid column) as [typed |] eqn:Hreg.
  2:{ left. exists ErrUnknownDataType. unfold Column_Write. rewrite Hlive.
      unfold bind, TypeInfo. now rewrite Hinfo, Hreg. }
  right.
  destruct (Set_ typed src (Value typed)) as [[e |] v] eqn:Hset.
  { exists typed, v. repeat split; try reflexivity. left. exists e.
    apply (Column_Write_Set_error _ _ _ _ _ _ _ Hlive Hinfo Hreg Hset). }
  exists typed, v. repeat split; try reflexivity.
  destruct (Encoder (Format column) (with_Value typed v)) as [bb [e |]] eqn:Henc.
  - left. exists e.
    apply (Column_Write_encode_error _ _ _ _ _ _ _ _ Hlive Hinfo Hreg Hset Henc).
  - right. exists bb. split; [reflexivity |].
    apply (Column_Write_ok _ _ _ _ _ _ _ Hlive Hinfo Hreg Hset Henc).
Qed.

(** X2. [Column.Write] never sends anything and never reshapes the
    registry: whatever it returns, the stream and the type of the message
    under construction are as before, the payload under construction is
    only extended, the same OIDs stay registered with the same [Set] and
    encoders, and the data types of all other OIDs are untouched. *)
Theorem Column_Write_frame ctx column src s :
  stream (writer (snd (Column_Write ctx column src s))) = stream (writer s)
  /\ mtype (writer (snd (Column_Write ctx column src s))) = mtype (writer s)
  /\ (exists field,
        payload (writer (snd (Column_Write ctx column src s)))
        = payload (writer s) ++ field)
  /\ same_types (types s) (types (snd (Column_Write ctx column src s)))
  /\ (forall oid, oid <> Oid column ->
        types (snd (Column_Write ctx column src s)) !! oid = types s !! oid).
Proof.
  destruct (Column_Write_ends ctx column src s)
    as [[e Hrun] | (typed & v & _ & _ & Hreg & [[e Hrun] | (bb & _ & Hrun)])];
    rewrite Hrun; cbn [snd writer types stream mtype payload AddBytes].
  - repeat split; try apply same_types_refl.
    exists []. now rewrite app_nil_r.
  - repeat split.
    + exists []. now rewrite app_nil_r.
    + now apply same_types_insert.
    + intros oid Hne. now rewrite lookup_insert_ne.
  - repeat split.
    + now exists (data_row_field src bb).
    + now apply same_types_insert.
    + intros oid Hne. now rewrite lookup_insert_ne.
Qed.

(** X3. Without connection info in a live context [Column.Write] returns
    the "connection info has not been defined" error and changes nothing,
    whether or not the column's type is registered. *)
Theorem Column_Write_no_conn_info ctx column src s :
  Err ctx = None -> has_TypeInfo ctx = false ->
  Column_Write ctx column src s = (inl ErrNoConnInfo, s).
Proof.
  intros Hlive Hinfo. unfold Column_Write. rewrite Hlive.
  unfold bind, TypeInfo. rewrite Hinfo. reflexivity.
Qed.

End WriteInversion.

(** ** A DataRow read back *)

Lemma parse_field_written {host : Type} (src : option host) (bb rest : list byte) :
  field_ok src bb ->
  parse_field (data_row_field src bb ++ rest) = Some (received src bb, rest).
Proof.
  intros [Hlen Hnil]. unfold data_row_field, parse_field.
  rewrite <- app_assoc.
  destruct src as [v |].
  - rewrite read_i32_be32 by lia.
    change (skipn 4 (be32 ?z ++ ?r)) with r.
    destruct (Z.eqb_spec (Z.of_nat (length bb)) (-1)) as [Hneg | _]; [lia |].
    destruct (Z.ltb_spec (Z.of_nat (length bb)) 0) as [Hneg | _]; [lia |].
    rewrite Nat2Z.id, length_app.
    destruct (Nat.ltb_spec (length bb + length rest) (length bb)) as [Hshort | _];
      [lia |].
    now rewrite take_app_length, drop_app_length.
  - rewrite (Hnil eq_refl). rewrite read_i32_be32 by lia. reflexivity.
Qed.

Lemma parse_fields_written {host : Type} (srcs : list (option host)) :
  forall outs,
    fields_ok srcs outs ->
    parse_fields (length outs) (data_row_fields srcs outs)
    = Some (received_row srcs outs).
Proof.
  induction srcs as [| src srcs IH]; intros [| bb outs] Hok;
    try contradiction; [reflexivity |].
  destruct Hok as [Hfield Hrest].
  cbn [length data_row_fields parse_fields received_row].
  now rewrite (parse_field_written src bb _ Hfield), (IH outs Hrest).
Qed.

Lemma parse_data_row_written {host : Type} (srcs : list (option host))
    (outs : list (list byte)) :
  Z.of_nat (length outs) <= 32767 ->
  fields_ok srcs outs ->
  parse_data_row (be16 (Z.of_nat (length outs)) ++ data_row_fields srcs outs)
  = Some (received_row srcs outs).
Proof.
  intros Hfits Hok. unfold parse_data_row.
  rewrite read_i16_be16 by lia.
  destruct (Z.ltb_spec (Z.of_nat (length outs)) 0) as [Hneg | _]; [lia |].
  rewrite Nat2Z.id. change (skipn 2 (be16 ?z ++ ?r)) with r.
  now apply parse_fields_written.
Qed.

Section FieldFacts.
Context {host Cell : Type}.
Implicit Types (s : Conn host Cell) (ctx : Context) (column : Column).
Implicit Types (src : option host) (columns : list Column).
Implicit Types (srcs : list (option host)).

(** X4. When [Column.Write] returns nil the context was live and carried
    the connection info, and exactly one field was appended: the length
    prefix and the bytes that the encoder of the column's format gives for
    the value object the call left in the registry. When those bytes fit a
    field, a client reads the field back as NULL for a nil source and as
    these bytes otherwise. *)
Theorem Column_Write_field ctx column src s s' :
  Column_Write ctx column src s = (inr tt, s') ->
  Err ctx = None /\ has_TypeInfo ctx = true
  /\ exists typed bb,
       types s' !! Oid column = Some typed
       /\ Encoder (Format column) typed = (bb, None)
       /\ writer s' = AddBytes (data_row_field src bb) (writer s)
       /\ (field_ok src bb ->
           forall rest,
             parse_field (data_row_field src bb ++ rest)
             = Some (received src bb, rest)).
Proof.
  intros Hnil.
  destruct (Column_Write_ends ctx column src s)
    as [[e Hrun] | (typed & v & Hlive & Hinfo & Hreg & [[e Hrun] | (bb & Henc & Hrun)])];
    rewrite Hrun in Hnil; try discriminate Hnil.
  injection Hnil as <-. repeat split; try assumption.
  exists (with_Value typed v), bb. cbn [types writer].
  rewrite lookup_insert_eq. repeat split; try assumption.
  intros Hok rest. now apply parse_field_written.
Qed.

End FieldFacts.

(** ** Rows *)

Lemma data_row_fields_nil {host : Type} (srcs : list (option host)) :
  data_row_fields srcs [] = [].
Proof. now destruct srcs. Qed.

Section RowRuns.
Context {host Cell : Type}.
Implicit Types (s : Conn host Cell) (ctx : Context) (column : Column).
Implicit Types (columns : list Column) (srcs : list (option host)).

(** The loop of [Columns.Write], however it ends. *)
Lemma Write_each_run ctx columns : forall index srcs s,
  stream (writer (snd (Write_each ctx index columns srcs s))) = stream (writer s)
  /\ same_types (types s) (types (snd (Write_each ctx index columns srcs s)))
  /\ (forall oid,
        Forall (fun c => Oid c <> oid) columns ->
        types (snd (Write_each ctx index columns srcs s)) !! oid = types s !! oid)
  /\ (forall s',
        Write_each ctx index columns srcs s = (inr tt, s') ->
        (columns <> [] -> Err ctx = None /\ has_TypeInfo ctx = true)
        /\ Forall (fun c => is_Some (types s !! Oid c)) columns
        /\ exists outs,
             length outs = length columns
             /\ writer s'
                = AddBytes (data_row_fields (skipn index srcs) outs) (writer s)).
Proof.
  induction columns as [| column rest IH]; intros index srcs s.
  - cbn [Write_each]. unfold ret. cbn [snd].
    split; [reflexivity |]. split; [apply same_types_refl |].
    split; [reflexivity |].
    intros s' Hrun. injection Hrun as <-.
    split; [congruence |]. split; [constructor |].
    exists []. now rewrite data_row_fields_nil, AddBytes_nil.
  - cbn [Write_each].
    destruct (srcs !! index) as [src |] eqn:Hsrc.
    2:{ unfold fail. cbn [snd].
        split; [reflexivity |]. split; [apply same_types_refl |].
        split; [reflexivity |]. intros s' Hrun. discriminate Hrun. }
    unfold bind.
    destruct (Column_Write_ends ctx column src s)
      as [[e Hrun] | (typed & v & Hlive & Hinfo & Hreg
                      & [[e Hrun] | (bb & Henc & Hrun)])];
      rewrite Hrun.
    + cbn [snd].
      split; [reflexivity |]. split; [apply same_types_refl |].
      split; [reflexivity |]. intros s' Hs'. discriminate Hs'.
    + cbn [snd writer types].
      split; [reflexivity |]. split; [now apply same_types_insert |].
      split.
      * intros oid Hother. apply Forall_cons in Hother as [Hne _].
        now rewrite lookup_insert_ne.
      * intros s' Hs'. discriminate Hs'.
    + match goal with
      | |- context [Write_each ctx (S index) rest srcs ?s1] =>
        destruct (IH (S index) srcs s1) as (Hstream & Hsame & Hothers & Hnil)
      end.
      cbn [writer types AddBytes stream] in Hstream, Hsame, Hothers, Hnil.
      split; [exact Hstream |].
      split; [apply (same_types_trans _ _ _ (same_types_insert _ _ _ v Hreg) Hsame) |].
      split.
      * intros oid Hother. apply Forall_cons in Hother as [Hne Hrest].
        rewrite (Hothers oid Hrest). now rewrite lookup_insert_ne.
      * intros s' Hs'. destruct (Hnil s' Hs') as (_ & Hregistered & outs & Hlen & Hw).
        split; [now intros _ |]. split.
        -- constructor; [now rewrite Hreg |].
           eapply Forall_impl; [exact Hregistered |].
           intros c Hc. cbn beta in Hc.
           apply (same_types_registered _ _ (Oid c)
                    (same_types_insert _ _ _ v Hreg)).
           exact Hc.
        -- exists (bb :: outs). split; [cbn [length]; now rewrite Hlen |].
           rewrite Hw, (drop_S _ _ _ Hsrc). cbn [data_row_fields].
           unfold AddBytes. cbn [mtype payload stream].
           now rewrite app_assoc.
Qed.

(** With as many values as columns, [Columns.Write] is its loop run on a
    started DataRow, followed by [End] when the loop returns nil. *)
Lemma Columns_Write_loop ctx columns srcs s :
  length srcs = length columns ->
  Columns_Write ctx columns srcs s
  = match Write_each ctx 0 columns srcs
            {| writer := AddInt16 (int16 (Z.of_nat (length columns)))
                                  (Start ServerDataRow (writer s));
               types := types s |} with
    | (inl e, s1) => (inl e, s1)
    | (inr _, s1) =>
      (inr tt, {| writer := snd (End (writer s1)); types := types s1 |})
    end.
Proof.
  intros Heq. unfold Columns_Write.
  rewrite (proj2 (Nat.eqb_eq _ _) Heq). cbn [negb].
  unfold bind at 1. unfold on_writer at 1. cbn [writer types].
  unfold bind at 1. unfold on_writer at 1. cbn [writer types].
  unfold bind.
  destruct (Write_each ctx 0 columns srcs _) as [[e | []] s1]; reflexivity.
Qed.

(** [Columns.Write], however it ends: the registry keeps its data types,
    and a nil return means one DataRow was sent, with one field per value. *)
Lemma Columns_Write_run ctx columns srcs s :
  same_types (types s) (types (snd (Columns_Write ctx columns srcs s)))
  /\ (forall oid,
        Forall (fun c => Oid c <> oid) columns ->
        types (snd (Columns_Write ctx columns srcs s)) !! oid = types s !! oid)
  /\ (forall s',
        Columns_Write ctx columns srcs s = (inr tt, s') ->
        length srcs = length columns
        /\ (columns <> [] -> Err ctx = None /\ has_TypeInfo ctx = true)
        /\ Forall (fun c => is_Some (types s !! Oid c)) columns
        /\ exists outs,
             length outs = length columns
             /\ writer s'
                = sent ServerDataRow
                    (be16 (Z.of_nat (length columns)) ++ data_row_fields srcs outs)
                    (writer s)).
Proof.
  destruct (Nat.eq_dec (length srcs) (length columns)) as [Heq | Hne].
  2:{ rewrite Columns_Write_mismatch by assumption. cbn [snd].
      split; [apply same_types_refl |]. split; [reflexivity |].
      intros s' Hs'. discriminate Hs'. }
  rewrite (Columns_Write_loop ctx columns srcs s Heq).
  match goal with
  | |- context [Write_each ctx 0 columns srcs ?s0] =>
    destruct (Write_each_run ctx columns 0%nat srcs s0)
      as (Hstream & Hsame & Hothers & Hnil);
    destruct (Write_each ctx 0 columns srcs s0) as [[e | []] s1]
  end; cbn [snd writer types] in *.
  - split; [exact Hsame |]. split; [exact Hothers |].
    intros s' Hs'. discriminate Hs'.
  - split; [exact Hsame |]. split; [exact Hothers |].
    intros s' Hs'. injection Hs' as <-.
    destruct (Hnil s1 eq_refl) as (Hlive & Hregistered & outs & Hlen & Hw).
    split; [exact Heq |]. split; [exact Hlive |]. split; [exact Hregistered |].
    exists outs. split; [exact Hlen |]. cbn [writer].
    rewrite Hw. cbn [skipn]. unfold AddInt16.
    rewrite AddBytes_AddBytes, AddBytes_Start, be16_int16. reflexivity.
Qed.

End RowRuns.

Section EncodedRows.
Context {host Cell : Type}.
Implicit Types (s : Conn host Cell) (ctx : Context) (column : Column).
Implicit Types (columns : list Column) (srcs : list (option host)).
Implicit Types (src : option host) (m : gmap Z (DataType host Cell)).

(** A nil return of [Column.Write], read backwards: the type was
    registered, [Set] ran on its value object, and the field holds what the
    encoder gave for it. *)
Lemma Column_Write_nil_inv ctx column src s s' :
  Column_Write ctx column src s = (inr tt, s') ->
  s' = {| writer := AddBytes (data_row_field src (encoded_value (types s) column src))
                             (writer s);
          types := after_Set (types s) column src |}.
Proof.
  intros Hnil. unfold encoded_value, after_Set.
  destruct (Err ctx) as [e |] eqn:Hlive.
  { unfold Column_Write in Hnil. rewrite Hlive in Hnil. discriminate Hnil. }
  destruct (has_TypeInfo ctx) eqn:Hinfo.
  2:{ unfold Column_Write in Hnil. rewrite Hlive in Hnil.
      unfold bind, TypeInfo in Hnil. rewrite Hinfo in Hnil. discriminate Hnil. }
  destruct (types s !! Oid column) as [typed |] eqn:Hreg.
  2:{ unfold Column_Write in Hnil. rewrite Hlive in Hnil.
      unfold bind, TypeInfo in Hnil. rewrite Hinfo, Hreg in Hnil.
      discriminate Hnil. }
  destruct (Set_ typed src (Value typed)) as [[e |] v] eqn:Hset.
  { rewrite (Column_Write_Set_error _ _ _ _ _ _ _ Hlive Hinfo Hreg Hset) in Hnil.
    discriminate Hnil. }
  cbn [snd].
  destruct (Encoder (Format column) (with_Value typed v)) as [bb [e |]] eqn:Henc.
  { rewrite (Column_Write_encode_error _ _ _ _ _ _ _ _ Hlive Hinfo Hreg Hset Henc)
      in Hnil.
    discriminate Hnil. }
  rewrite (Column_Write_ok _ _ _ _ _ _ _ Hlive Hinfo Hreg Hset Henc) in Hnil.
  injection Hnil as <-. reflexivity.
Qed.

Lemma data_row_fields_nil_l (outs : list (list byte)) :
  data_row_fields (@nil (option host)) outs = [].
Proof. reflexivity. Qed.

(** A nil return of the loop: the fields appended are those of the values
    from [index] on, each encoded on the registry the columns before it
    left. *)
Lemma Write_each_encoded ctx columns : forall index srcs s s',
  Write_each ctx index columns srcs s = (inr tt, s') ->
  writer s'
  = AddBytes (data_row_fields (skipn index srcs)
                (encoded_row columns (skipn index srcs) (types s)))
             (writer s).
Proof.
  induction columns as [| column rest IH]; intros index srcs s s' Hnil.
  - cbn [Write_each] in Hnil. injection Hnil as <-.
    cbn [encoded_row]. now rewrite data_row_fields_nil, AddBytes_nil.
  - cbn [Write_each] in Hnil.
    destruct (srcs !! index) as [src |] eqn:Hsrc; [| discriminate Hnil].
    unfold bind in Hnil.
    destruct (Column_Write ctx column src s) as [[e | []] s1] eqn:Hcolumn;
      [discriminate Hnil |].
    apply Column_Write_nil_inv in Hcolumn. subst s1.
    apply IH in Hnil. cbn [writer types] in Hnil.
    rewrite Hnil, (drop_S _ _ _ Hsrc). cbn [encoded_row data_row_fields].
    now rewrite AddBytes_AddBytes.
Qed.

Lemma Columns_Write_encoded ctx columns srcs s s' :
  Columns_Write ctx columns srcs s = (inr tt, s') ->
  writer s'
  = sent ServerDataRow
      (be16 (Z.of_nat (length columns))
       ++ data_row_fields srcs (encoded_row columns srcs (types s)))
      (writer s).
Proof.
  intros Hnil.
  destruct (Nat.eq_dec (length srcs) (length columns)) as [Heq | Hne].
  2:{ rewrite Columns_Write_mismatch in Hnil by assumption. discriminate Hnil. }
  rewrite (Columns_Write_loop ctx columns srcs s Heq) in Hnil.
  destruct (Write_each ctx 0 columns srcs _) as [[e | []] s1] eqn:Hloop;
    [discriminate Hnil |].
  injection Hnil as <-. cbn [writer].
  apply Write_each_encoded in Hloop. cbn [writer types skipn] in Hloop.
  rewrite Hloop. unfold AddInt16.
  rewrite AddBytes_AddBytes, AddBytes_Start, be16_int16. reflexivity.
Qed.

Lemma encoded_row_length columns : forall srcs m,
  length srcs = length columns ->
  length (encoded_row columns srcs m) = length srcs.
Proof.
  induction columns as [| column rest IH]; intros [| src srcs] m Heq;
    try discriminate Heq; [reflexivity |].
  cbn [encoded_row length]. f_equal. apply IH. now injection Heq.
Qed.

(** For columns of pairwise different OIDs, each value is encoded on the
    registry the row started with. *)
Lemma encoded_row_distinct columns : forall srcs m m',
  (forall c, In c columns -> m' !! Oid c = m !! Oid c) ->
  NoDup (map Oid columns) ->
  encoded_row columns srcs m' = zip_with (encoded_value m) columns srcs.
Proof.
  induction columns as [| column rest IH]; intros [| src srcs] m m' Hagree Hdistinct;
    try reflexivity.
  cbn [encoded_row zip_with map] in *.
  apply NoDup_cons in Hdistinct as [Hfresh Hdistinct].
  f_equal.
  - unfold encoded_value. rewrite (Hagree column) by now left. reflexivity.
  - apply IH; [| exact Hdistinct].
    intros c Hc. rewrite <- (Hagree c) by now right.
    unfold after_Set. destruct (m' !! Oid column) as [typed |]; [| reflexivity].
    apply lookup_insert_ne. intros Hsame. apply Hfresh.
    rewrite Hsame. apply list_elem_of_In. now apply in_map.
Qed.

End EncodedRows.

Section RowTheoremsMore.
Context {host Cell : Type}.
Implicit Types (s : Conn host Cell) (ctx : Context) (column : Column).
Implicit Types (columns : list Column) (srcs : list (option host)).

(** X5. When [Columns.Write] returns nil, the DataRow it sent holds the
    count and then exactly one field per given value, in order: the length
    prefix and the bytes of the value, which are what the encoder of its
    column's format gives for the value object of the column's data type
    once [Set] was called on it with the value (on the registry as the
    columns before it left it; for columns of pairwise different OIDs, on
    the registry [Columns.Write] started with). When the count fits an
    [i16] and these bytes fit their fields (fewer than [2^31], none for
    nil), a client reads the row back as one entry per value: NULL where
    the value was nil, the encoded bytes elsewhere. *)
Theorem Columns_Write_read_back ctx columns srcs s s' :
  Columns_Write ctx columns srcs s = (inr tt, s') ->
  length (encoded_row columns srcs (types s)) = length srcs
  /\ writer s'
     = sent ServerDataRow
         (be16 (Z.of_nat (length columns))
          ++ data_row_fields srcs (encoded_row columns srcs (types s)))
         (writer s)
  /\ (Z.of_nat (length columns) <= 32767 ->
      fields_ok srcs (encoded_row columns srcs (types s)) ->
      parse_data_row
        (be16 (Z.of_nat (length columns))
         ++ data_row_fields srcs (encoded_row columns srcs (types s)))
      = Some (received_row srcs (encoded_row columns srcs (types s))))
  /\ (NoDup (map Oid columns) ->
      encoded_row columns srcs (types s)
      = zip_with (encoded_value (types s)) columns srcs).
Proof.
  intros Hnil.
  destruct (Columns_Write_run ctx columns srcs s) as (_ & _ & Hsent).
  destruct (Hsent s' Hnil) as (Heq & _ & _ & _).
  pose proof (encoded_row_length columns srcs (types s) Heq) as Hlen.
  split; [exact Hlen |].
  split; [exact (Columns_Write_encoded ctx columns srcs s s' Hnil) |].
  split.
  - intros Hfits Hok.
    replace (length columns) with
      (length (encoded_row columns srcs (types s))) in * by congruence.
    now apply parse_data_row_written.
  - intros Hdistinct. apply encoded_row_distinct; [| exact Hdistinct].
    intros c _. reflexivity.
Qed.

(** X6. [Columns.Write] never registers, removes or replaces a data type,
    whatever it returns: the same OIDs are registered afterwards, with the
    same [Set] and encoders, and the data type of an OID that none of the
    row's columns has is left exactly as it was. *)
Theorem Columns_Write_keeps_types ctx columns srcs s :
  same_types (types s) (types (snd (Columns_Write ctx columns srcs s)))
  /\ (forall oid,
        Forall (fun c => Oid c <> oid) columns ->
        types (snd (Columns_Write ctx columns srcs s)) !! oid = types s !! oid).
Proof.
  destruct (Columns_Write_run ctx columns srcs s) as (Hsame & Hothers & _).
  split; assumption.
Qed.

(** X7. [Columns.Write] returns nil only if as many values as columns were
    given and the type of every declared column is registered; and, when
    there is at least one column, only in a live context that carries the
    connection info. *)
Theorem Columns_Write_nil_only_if ctx columns srcs s s' :
  Columns_Write ctx columns srcs s = (inr tt, s') ->
  length srcs = length columns
  /\ Forall (fun c => is_Some (types s !! Oid c)) columns
  /\ (columns <> [] -> Err ctx = None /\ has_TypeInfo ctx = true).
Proof.
  intros Hnil.
  destruct (Columns_Write_run ctx columns srcs s) as (_ & _ & Hsent).
  destruct (Hsent s' Hnil) as (Heq & Hlive & Hregistered & _).
  repeat split; try assumption; now apply Hlive.
Qed.

(** X8. An empty row is still a row: with no columns and no values
    [Columns.Write] returns nil and sends a DataRow of count 0, in every
    context (also a cancelled one, and one without connection info). Since
    [Columns.Define] sends nothing for an empty column set, defining and
    then writing an empty row puts a DataRow on the stream with no
    RowDescription before it. *)
Theorem Columns_Write_empty_row ctx s :
  Columns_Write ctx [] [] s
  = (inr tt, {| writer := sent ServerDataRow (be16 0) (writer s);
                types := types s |})
  /\ bind (Columns_Define ctx []) (fun _ => Columns_Write ctx [] []) s
     = (inr tt, {| writer := sent ServerDataRow (be16 0) (writer s);
                   types := types s |})
  /\ parse_data_row (be16 0) = Some [].
Proof.
  assert (Hrow : Columns_Write ctx [] [] s
                 = (inr tt, {| writer := sent ServerDataRow (be16 0) (writer s);
                               types := types s |})).
  { rewrite Columns_Write_loop by reflexivity. reflexivity. }
  split; [exact Hrow |]. split; [| reflexivity].
  unfold bind. rewrite Columns_Define_run. exact Hrow.
Qed.

(** X9. In a cancelled context a row of at least one column is not sent:
    given as many values as columns, [Columns.Write] returns the context's
    error, the stream is as it was, and no data type was touched. *)
Theorem Columns_Write_cancelled_row ctx e columns srcs s :
  Err ctx = Some e ->
  columns <> [] ->
  length srcs = length columns ->
  returned (Columns_Write ctx columns srcs s) = Some e
  /\ stream (writer (snd (Columns_Write ctx columns srcs s))) = stream (writer s)
  /\ types (snd (Columns_Write ctx columns srcs s)) = types s.
Proof.
  intros Hcancelled Hne Heq.
  assert (Hrun : Columns_Write ctx columns srcs s
                 = (inl e, {| writer := AddInt16 (int16 (Z.of_nat (length columns)))
                                                 (Start ServerDataRow (writer s));
                              types := types s |})).
  { rewrite (Columns_Write_loop ctx columns srcs s Heq).
    destruct columns as [| column rest]; [congruence |].
    destruct srcs as [| src srcs]; [discriminate Heq |].
    cbn [Write_each lookup list_lookup]. unfold bind.
    unfold Column_Write. rewrite Hcancelled. reflexivity. }
  rewrite Hrun. repeat split; reflexivity.
Qed.

(** X10. [Columns.Write] starts a fresh message: its error, the stream it
    leaves and the registry it leaves depend on the stream and the registry
    it finds, not on the message left under construction in the writer (as
    a row that failed half-way leaves one). *)
Theorem Columns_Write_fresh_message ctx columns srcs s1 s2 :
  stream (writer s1) = stream (writer s2) ->
  types s1 = types s2 ->
  returned (Columns_Write ctx columns srcs s1)
  = returned (Columns_Write ctx columns srcs s2)
  /\ stream (writer (snd (Columns_Write ctx columns srcs s1)))
     = stream (writer (snd (Columns_Write ctx columns srcs s2)))
  /\ types (snd (Columns_Write ctx columns srcs s1))
     = types (snd (Columns_Write ctx columns srcs s2)).
Proof.
  intros Hstream Htypes.
  destruct (Nat.eq_dec (length srcs) (length columns)) as [Heq | Hne].
  - rewrite !Columns_Write_loop by assumption.
    unfold Start. rewrite Hstream, Htypes. repeat split.
  - rewrite !Columns_Write_mismatch by assumption. cbn [snd returned fst].
    repeat split; assumption.
Qed.

(** X11. Defining a non-empty column set and then writing a row: when both
    return nil, the stream has grown by the RowDescription followed by the
    DataRow, and both messages carry the same count field. *)
Theorem Columns_Define_then_Write ctx columns srcs s s' :
  columns <> [] ->
  bind (Columns_Define ctx columns) (fun _ => Columns_Write ctx columns srcs) s
  = (inr tt, s') ->
  exists outs,
    length outs = length srcs
    /\ stream (writer s')
       = stream (writer s)
         ++ message ServerRowDescription (row_description columns)
         ++ message ServerDataRow
              (be16 (Z.of_nat (length columns)) ++ data_row_fields srcs outs)
    /\ message_count (message ServerRowDescription (row_description columns))
       = message_count
           (message ServerDataRow
              (be16 (Z.of_nat (length columns)) ++ data_row_fields srcs outs)).
Proof.
  intros Hne Hboth. unfold bind in Hboth.
  rewrite Columns_Define_run in Hboth.
  destruct columns as [| column rest]; [congruence |].
  match type of Hboth with
  | Columns_Write _ _ _ ?s0 = _ =>
    destruct (Columns_Write_run ctx (column :: rest) srcs s0) as (_ & _ & Hsent)
  end.
  destruct (Hsent s' Hboth) as (Heq & _ & _ & outs & Hlen & Hw).
  exists outs. split; [congruence |]. split.
  - rewrite Hw. cbn [writer sent stream]. now rewrite <- app_assoc.
  - unfold row_description. now rewrite !message_count_sent.
Qed.

End RowTheoremsMore.

Section ValueObject.
Context {host Cell : Type}.
Implicit Types (s : Conn host Cell) (ctx : Context) (column : Column).
Implicit Types (src : option host) (typed : DataType host Cell).

(** X12. The value object of a data type is shared by every column of its
    OID, and [Column.Write] overwrites it: once the context is live, carries
    the connection info and the column's type is registered, the registry
    afterwards holds, under the column's OID, the value object as [Set] left
    it for this source value, also when [Set] or the encoder returned an
    error. *)
Theorem Column_Write_sets_value ctx column src s typed :
  Err ctx = None -> has_TypeInfo ctx = true ->
  types s !! Oid column = Some typed ->
  types (snd (Column_Write ctx column src s)) !! Oid column
  = Some (with_Value typed (snd (Set_ typed src (Value typed)))).
Proof.
  intros Hlive Hinfo Hreg.
  destruct (Set_ typed src (Value typed)) as [[e |] v] eqn:Hset.
  - rewrite (Column_Write_Set_error ctx column src s typed e v
               Hlive Hinfo Hreg Hset).
    cbn [snd types]. apply lookup_insert_eq.
  - destruct (Encoder (Format column) (with_Value typed v)) as [bb [e |]] eqn:Henc.
    + rewrite (Column_Write_encode_error ctx column src s typed v bb e
                 Hlive Hinfo Hreg Hset Henc).
      cbn [snd types]. apply lookup_insert_eq.
    + rewrite (Column_Write_ok ctx column src s typed v bb
                 Hlive Hinfo Hreg Hset Henc).
      cbn [snd types]. apply lookup_insert_eq.
Qed.

End ValueObject.

(** ** The further properties on the tests' columns *)

Lemma sample_columns_well_formed :
  Forall well_formed [Sample.name_column; Sample.member_column].
Proof.
  assert (Hwf : forall column,
             column = Sample.name_column \/ column = Sample.member_column ->
             well_formed column).
  { intros column [-> | ->]; unfold well_formed;
      unfold Sample.name_column, Sample.member_column, Sample.T_text,
        Sample.T_bool; cbn [Table AttrNo Oid Width Name];
      (split; [lia | split; [lia | split; [lia | split; [lia |]]]]);
      intros Hin; repeat (destruct Hin as [Hin | Hin]; [discriminate Hin |]);
      exact Hin. }
  constructor; [apply Hwf; now left |].
  constructor; [apply Hwf; now right | constructor].
Qed.

(** The RowDescription of the first two columns of
    [TestServerWritingResult], read back: the declared columns, with the
    type modifier [-1]. *)
Lemma Columns_Define_read_back_witness :
  exists p,
    writer (snd (Columns_Define Sample.ctx
                   [Sample.name_column; Sample.member_column] Sample.conn))
    = sent ServerRowDescription p Sample.fresh_writer
    /\ parse_row_description p
       = Some [ {| Table := 0; Name := "name"; AttrNo := 0; Oid := 25;
                   Width := 256; TypeModifier := -1; Format := TextFormat |}
              ; {| Table := 0; Name := "member"; AttrNo := 0; Oid := 16;
                   Width := 1; TypeModifier := -1; Format := TextFormat |} ].
Proof.
  destruct (Columns_Define_read_back Sample.ctx
              [Sample.name_column; Sample.member_column] Sample.conn)
    as (p & Hrun & Hparse).
  - discriminate.
  - cbn. lia.
  - exact sample_columns_well_formed.
  - exists p. rewrite Hrun. split; [reflexivity | exact Hparse].
Defined.

(** A context that was never given the connection info. *)
Lemma Column_Write_no_conn_info_witness :
  Column_Write Background Sample.name_column (Some (Sample.HString "John"))
               Sample.conn
  = (inl ErrNoConnInfo, Sample.conn).
Proof.
  apply (Column_Write_no_conn_info Background Sample.name_column
           (Some (Sample.HString "John")) Sample.conn);
    reflexivity.
Defined.

(** The field of ["John"] in a text column. *)
Lemma Column_Write_field_witness :
  exists s' typed bb,
    Column_Write Sample.ctx Sample.name_column (Some (Sample.HString "John"))
                 Sample.conn = (inr tt, s')
    /\ types s' !! Sample.T_text = Some typed
    /\ Encoder TextFormat typed = (bb, None)
    /\ writer s'
       = AddBytes (data_row_field (Some (Sample.HString "John")) bb)
                  Sample.fresh_writer.
Proof.
  destruct (Column_Write Sample.ctx Sample.name_column
              (Some (Sample.HString "John")) Sample.conn)
    as [[e | []] s'] eqn:Hrun.
  - vm_compute in Hrun. discriminate Hrun.
  - destruct (Column_Write_field Sample.ctx Sample.name_column
                (Some (Sample.HString "John")) Sample.conn s' Hrun)
      as (_ & _ & typed & bb & Hreg & Henc & Hw & _).
    exists s', typed, bb. repeat split; assumption.
Defined.

(** The first row of [TestServerWritingResult], without its third column:
    the text encoders give ["John"] and ["t"], and a client reads these. *)
Lemma Columns_Write_read_back_witness :
  encoded_row [Sample.name_column; Sample.member_column]
              [Some (Sample.HString "John"); Some (Sample.HBool true)]
              Sample.registry
  = [list_byte_of_string "John"; list_byte_of_string "t"]
  /\ exists s',
       Columns_Write Sample.ctx [Sample.name_column; Sample.member_column]
                     [Some (Sample.HString "John"); Some (Sample.HBool true)]
                     Sample.conn = (inr tt, s')
       /\ writer s'
          = sent ServerDataRow
              (be16 2 ++ be32 4 ++ list_byte_of_string "John"
               ++ be32 1 ++ list_byte_of_string "t")
              Sample.fresh_writer
       /\ parse_data_row
            (be16 2 ++ be32 4 ++ list_byte_of_string "John"
             ++ be32 1 ++ list_byte_of_string "t")
          = Some [Some (list_byte_of_string "John");
                  Some (list_byte_of_string "t")].
Proof.
  assert (Henc : encoded_row [Sample.name_column; Sample.member_column]
                   [Some (Sample.HString "John"); Some (Sample.HBool true)]
                   (types Sample.conn)
                 = [list_byte_of_string "John"; list_byte_of_string "t"])
    by (vm_compute; reflexivity).
  split; [exact Henc |].
  destruct (Columns_Write Sample.ctx [Sample.name_column; Sample.member_column]
              [Some (Sample.HString "John"); Some (Sample.HBool true)]
              Sample.conn)
    as [[e | []] s'] eqn:Hrun.
  - vm_compute in Hrun. discriminate Hrun.
  - destruct (Columns_Write_read_back Sample.ctx _ _ Sample.conn s' Hrun)
      as (_ & Hw & Hparse & _).
    rewrite Henc in Hw, Hparse.
    exists s'. split; [reflexivity |]. split; [exact Hw |].
    apply Hparse.
    + cbn. lia.
    + cbn. repeat split; try lia; intros Hnil; discriminate Hnil.
Defined.

(** The same row needs both of its types registered. *)
Lemma Columns_Write_nil_only_if_witness :
  Forall (fun c => is_Some (types Sample.conn !! Oid c))
         [Sample.name_column; Sample.member_column]
  /\ Err Sample.ctx = None.
Proof.
  destruct (Columns_Write Sample.ctx [Sample.name_column; Sample.member_column]
              [Some (Sample.HString "John"); Some (Sample.HBool true)]
              Sample.conn)
    as [[e | []] s'] eqn:Hrun.
  - vm_compute in Hrun. discriminate Hrun.
  - destruct (Columns_Write_nil_only_if Sample.ctx _ _ Sample.conn s' Hrun)
      as (_ & Hregistered & Hlive).
    split; [exact Hregistered | apply Hlive; discriminate].
Defined.

(** A row written after the query was cancelled. *)
Lemma Columns_Write_cancelled_row_witness :
  returned (Columns_Write Sample.cancelled [Sample.name_column]
              [Some (Sample.HString "John")] Sample.conn) = Some Canceled
  /\ stream (writer (snd (Columns_Write Sample.cancelled [Sample.name_column]
                            [Some (Sample.HString "John")] Sample.conn))) = []
  /\ types (snd (Columns_Write Sample.cancelled [Sample.name_column]
                   [Some (Sample.HString "John")] Sample.conn))
     = Sample.registry.
Proof.
  apply (Columns_Write_cancelled_row Sample.cancelled Canceled
           [Sample.name_column] [Some (Sample.HString "John")] Sample.conn);
    [reflexivity | discriminate | reflexivity].
Defined.

(** A row written into a writer that still holds half a message. *)
Lemma Columns_Write_fresh_message_witness :
  stream (writer (snd (Columns_Write Sample.ctx [Sample.name_column] [None]
                         {| writer := {| mtype := ServerDataRow;
                                         payload := be16 1 ++ be32 4;
                                         stream := [] |};
                            types := Sample.registry |})))
  = stream (writer (snd (Columns_Write Sample.ctx [Sample.name_column] [None]
                           Sample.conn))).
Proof.
  apply (Columns_Write_fresh_message Sample.ctx [Sample.name_column] [None]
           {| writer := {| mtype := ServerDataRow; payload := be16 1 ++ be32 4;
                           stream := [] |};
              types := Sample.registry |}
           Sample.conn);
    reflexivity.
Defined.

(** [TestServerNULLValues]: the column is defined, then [(nil,)] written. *)
Lemma Columns_Define_then_Write_witness :
  exists s' outs,
    bind (Columns_Define Sample.ctx [Sample.name_column])
         (fun _ => Columns_Write Sample.ctx [Sample.name_column] [None])
         Sample.conn = (inr tt, s')
    /\ stream (writer s')
       = message ServerRowDescription (row_description [Sample.name_column])
         ++ message ServerDataRow (be16 1 ++ data_row_fields [@None Sample.host] outs).
Proof.
  destruct (bind (Columns_Define Sample.ctx [Sample.name_column])
              (fun _ => Columns_Write Sample.ctx [Sample.name_column] [None])
              Sample.conn)
    as [[e | []] s'] eqn:Hrun.
  - vm_compute in Hrun. discriminate Hrun.
  - destruct (Columns_Define_then_Write Sample.ctx [Sample.name_column] [None]
                Sample.conn s') as (outs & _ & Hstream & _).
    + discriminate.
    + exact Hrun.
    + exists s', outs. split; [reflexivity | exact Hstream].
Defined.

(** After ["Marry"] is written to the name column, the text type's value
    object holds it. *)
Lemma Column_Write_sets_value_witness :
  Value <$> (types (snd (Column_Write Sample.ctx Sample.name_column
                           (Some (Sample.HString "Marry")) Sample.conn))
             !! Oid Sample.name_column)
  = Some (Sample.Present (Sample.HString "Marry")).
Proof.
  rewrite (Column_Write_sets_value Sample.ctx Sample.name_column
             (Some (Sample.HString "Marry")) Sample.conn Sample.Text);
    reflexivity.
Defined.
